(** * Atlas store builder: the provisioning orchestrator and its progress store

    A shallow embedding of [app.py] (the JSON progress store, the REST
    submission endpoint, the background and the synchronous orchestrators)
    and of the part of [services/product.py] that decides how many catalog
    items are imported.

    Python dictionaries are finite maps with string keys, exceptions are an
    explicit [Raise] result, and the effects of the program (the database
    file, the executor's work queue, the calls made on the browser session)
    are threaded through a state-and-exception monad. *)

From Stdlib Require Import ZArith QArith Ascii String List Lia Sorted.
From stdpp Require Import gmap strings list fin_maps.

#[local] Set Warnings "-register-all".

(** ** Python values *)

(** JSON-like values: the payload of job records, request bodies and
    service results.  Numbers are integers. *)
Inductive value : Type :=
| VNone
| VBool (b : bool)
| VInt (z : Z)
| VStr (s : string)
| VList (l : list value)
| VDict (d : gmap string value).

(** A job record, a request body and an update are all [dict]s, that is
    [gmap string value]; the history is a [list] of them. *)

(** Python truthiness ([if v], [not v]). *)
Definition truthy (v : value) : bool :=
  match v with
  | VNone => false
  | VBool b => b
  | VInt z => negb (z =? 0)%Z
  | VStr s => negb (String.eqb s "")
  | VList l => match l with [] => false | _ => true end
  | VDict d => negb (Nat.eqb (size d) 0)
  end.

(** [d.get(k)]: a missing key reads as [None]. *)
Definition dict_get (d : gmap string value) (k : string) : value :=
  default VNone (d !! k).

(** [d.get(k, dflt)]. *)
Definition dict_get_default (d : gmap string value) (k : string) (dflt : value) : value :=
  default dflt (d !! k).

(** ** Exceptions *)

Inductive exc_class : Type :=
| JSONDecodeError
| UnicodeDecodeError
| ValueError
| FileNotFoundError
| PermissionError
| OSError
| AttributeError
| KeyError
| TypeError
| Exception.

(** An exception object: its class and [str(e)]. *)
Record exn : Type := Exc { exc_cls : exc_class; exc_msg : string }.

(** [except json.JSONDecodeError]: the class has no subclass in the model. *)
Definition is_JSONDecodeError (e : exn) : bool :=
  match exc_cls e with JSONDecodeError => true | _ => false end.

Inductive result (A : Type) : Type :=
| Ret (a : A)
| Raise (e : exn).
Arguments Ret {A} a.
Arguments Raise {A} e.

Definition is_Ret {A} (r : result A) : bool :=
  match r with Ret _ => true | Raise _ => false end.

(** The value returned, if any. *)
Definition returned {A} (r : result A) : option A :=
  match r with Ret a => Some a | Raise _ => None end.

(** ** The world the program runs in *)

(** The file at [DB_PATH], as [load_history] sees it: missing, present but
    not loadable ([open] or [json.load] raises [e]; a file that is not valid
    JSON is [ReadFails] with a [JSONDecodeError]), or holding a JSON array of
    job records. *)
Inductive db_file : Type :=
| Absent
| ReadFails (e : exn)
| Stored (h : list (gmap string value)).

(** The four stage operations. *)
Inductive stage : Type :=
| StCreateStore
| StGetToken
| StImportProducts
| StTransferOwnership.

(** A browser session (a WebDriver object), named by a number. *)
Definition handle : Type := nat.

(** A task handed to the executor: [(store_id, user_data)]. *)
Definition task : Type := string * gmap string value.

(** What the program does to its environment, in the order it does it. *)
Inductive event : Type :=
| EvWrite (h : list (gmap string value))   (* json.dump(history, f) on DB_PATH *)
| EvCall (s : stage)                        (* a stage operation is entered *)
| EvQuit (hd : handle) (ok : bool)          (* hd.quit() is invoked; ok: it returned *)
| EvSubmit (t : task).                      (* executor.submit(run_automation_background, ...) *)

(** [db] is the database file, [events] the effects so far (most recent
    first), and the last two fields are the local variables that the
    orchestrators assign in their [try] block and read in the [except]
    handler. *)
Record world : Type := World {
  db : db_file;
  events : list event;
  browser_session : option handle;
  automation_log : option (gmap string value)
}.

Definition world0 (f : db_file) : world :=
  {| db := f; events := []; browser_session := None; automation_log := None |}.

(** Effects in chronological order. *)
Definition trace (w : world) : list event := rev (events w).

(** ** State and exception monad *)

Definition M (A : Type) : Type := world -> result A * world.

Definition ret {A} (a : A) : M A := fun w => (Ret a, w).
Definition raise {A} (e : exn) : M A := fun w => (Raise e, w).
Definition bind {A B} (m : M A) (k : A -> M B) : M B :=
  fun w => match m w with
           | (Ret a, w') => k a w'
           | (Raise e, w') => (Raise e, w')
           end.

(** [try: m  except Exception as e: h e] (and the bare [except:]): every
    exception of the model is an [Exception]. *)
Definition try_except {A} (m : M A) (h : exn -> M A) : M A :=
  fun w => match m w with
           | (Ret a, w') => (Ret a, w')
           | (Raise e, w') => h e w'
           end.

(** [try: m  except C: h]: only the exceptions selected by [catches] are
    handled, the others propagate. *)
Definition try_except_if {A} (catches : exn -> bool) (m : M A) (h : exn -> M A) : M A :=
  try_except m (fun e => if catches e then h e else raise e).

Definition lift_result {A} (r : result A) : M A := fun w => (r, w).
Definition get_world : M world := fun w => (Ret w, w).
Definition emit (ev : event) : M unit :=
  fun w => (Ret tt, {| db := db w; events := ev :: events w;
                       browser_session := browser_session w;
                       automation_log := automation_log w |}).

#[export] Instance M_ret : MRet M := @ret.
#[export] Instance M_bind : MBind M := fun A B k m => bind m k.

(** ** Database functions ([app.py], lines 26-69) *)

Definition os_path_exists : M bool :=
  fun w => (Ret (match db w with Absent => false | _ => true end), w).

(** [with open(DB_PATH, 'r', encoding='utf-8') as f: json.load(f)]. *)
Definition json_load_file : M (list (gmap string value)) :=
  fun w => match db w with
           | Stored h => (Ret h, w)
           | ReadFails e => (Raise e, w)
           | Absent => (Raise (Exc FileNotFoundError "database/automation_progress.json"), w)
           end.

(** [os.makedirs('database', exist_ok=True)] followed by
    [json.dump(history, f)] on the file opened for writing.  The directory
    and the file are writable. *)
Definition json_dump_file (h : list (gmap string value)) : M unit :=
  fun w => (Ret tt, {| db := Stored h; events := EvWrite h :: events w;
                       browser_session := browser_session w;
                       automation_log := automation_log w |}).

Definition load_history : M (list (gmap string value)) :=
  try_except_if is_JSONDecodeError
    (present ← os_path_exists;
     if (present : bool) then json_load_file else ret [])
    (fun _ => ret []).

Definition save_history (e : gmap string value) : M unit :=
  h ← load_history;
  json_dump_file (h ++ [e]).

(** [entry.get('store_id') == store_id], for a string [store_id]. *)
Definition has_store_id (store_id : string) (e : gmap string value) : bool :=
  match e !! "store_id" with
  | Some (VStr s) => String.eqb s store_id
  | _ => false
  end.

Fixpoint find_entry (store_id : string) (h : list (gmap string value))
  : option (gmap string value) :=
  match h with
  | [] => None
  | e :: h' => if has_store_id store_id e then Some e else find_entry store_id h'
  end.

Definition get_entry_by_store_id (store_id : string) : M (option (gmap string value)) :=
  h ← load_history;
  ret (find_entry store_id h).

(** The loop of [update_entry_status]: [entry.update(updates)] on the first
    record that carries the id, then [break]. *)
Fixpoint update_first (store_id : string) (updates : gmap string value)
  (h : list (gmap string value)) : list (gmap string value) :=
  match h with
  | [] => []
  | e :: h' =>
      if has_store_id store_id e then (updates ∪ e) :: h'
      else e :: update_first store_id updates h'
  end.

Definition update_entry_status (store_id : string) (updates : gmap string value) : M unit :=
  h ← load_history;
  json_dump_file (update_first store_id updates h).

(** ** Strings *)

(** Python's [str.isspace] on the characters below 128. *)
Definition is_space (a : ascii) : bool :=
  let n := nat_of_ascii a in
  ((9 <=? n) && (n <=? 13)) || ((28 <=? n) && (n <=? 32)).

Fixpoint lstrip (s : string) : string :=
  match s with
  | EmptyString => EmptyString
  | String a s' => if is_space a then lstrip s' else s
  end.

(** [s.strip()]. *)
Definition strip (s : string) : string :=
  String.rev (lstrip (String.rev (lstrip s))).

(** [c in s] for a one-character string [c]. *)
Fixpoint contains_char (c : ascii) (s : string) : bool :=
  match s with
  | EmptyString => false
  | String a s' => Ascii.eqb a c || contains_char c s'
  end.

(** ** Job identifiers ([generate_store_id], [app.py] lines 46-48) *)

Definition hex_digit (d : Z) : ascii :=
  match d with
  | 0 => "0" | 1 => "1" | 2 => "2" | 3 => "3" | 4 => "4" | 5 => "5"
  | 6 => "6" | 7 => "7" | 8 => "8" | 9 => "9" | 10 => "a" | 11 => "b"
  | 12 => "c" | 13 => "d" | 14 => "e" | _ => "f"
  end%Z%char.

(** ['%0<n>x' % u], most significant digit first. *)
Fixpoint hex_of (n : nat) (u : Z) : string :=
  match n with
  | O => EmptyString
  | S n' => String (hex_digit (Z.land (Z.shiftr u (4 * Z.of_nat n')) 15)) (hex_of n' u)
  end.

(** [uuid.uuid4()] on 16 random bytes read as the integer [r]: the variant
    and version bits are overwritten, the other 122 bits are random. *)
Definition uuid4 (r : Z) : Z :=
  let r := Z.land r (Z.ones 128) in
  let r := Z.land r (Z.lnot (Z.shiftl 0xc000 48)) in
  let r := Z.lor r (Z.shiftl 0x8000 48) in
  let r := Z.land r (Z.lnot (Z.shiftl 0xf000 64)) in
  Z.lor r (Z.shiftl 4 76).

(** [str(u)]: 32 hexadecimal digits in groups of 8-4-4-4-12. *)
Definition uuid_str (u : Z) : string :=
  let h := hex_of 32 u in
  (substring 0 8 h +:+ "-" +:+ substring 8 4 h +:+ "-" +:+ substring 12 4 h
   +:+ "-" +:+ substring 16 4 h +:+ "-" +:+ substring 20 12 h).

(** [str(uuid.uuid4())[:8]], where [r] is the randomness drawn by this call. *)
Definition generate_store_id (r : Z) : string :=
  substring 0 8 (uuid_str (uuid4 r)).

(** ** The submission endpoint ([api_create_store], [app.py] lines 508-604) *)

(** [jsonify(body), code]. *)
Record response : Type := Response { body : gmap string value; code : Z }.

(** [v.strip()]: only strings have the method. *)
Definition value_strip (v : value) : M string :=
  match v with
  | VStr s => ret (strip s)
  | _ => raise (Exc AttributeError "object has no attribute 'strip'")
  end.

(** [data.get(k, dflt)] on the parsed body: only a dict has the method. *)
Definition value_get (data : value) (k : string) (dflt : value) : M value :=
  match data with
  | VDict d => ret (dict_get_default d k dflt)
  | _ => raise (Exc AttributeError "object has no attribute 'get'")
  end.

(** [data[k]]. *)
Definition value_item (data : value) (k : string) : M value :=
  match data with
  | VDict d => match d !! k with
               | Some v => ret v
               | None => raise (Exc KeyError k)
               end
  | _ => raise (Exc TypeError "object is not subscriptable")
  end.

Definition required_fields : list string :=
  ["client_name"; "store_name"; "email"; "business_type"].

(** The loop over [required_fields]: the response of the first field that
    is missing or blank, if any. *)
Fixpoint check_required (data : value) (fields : list string) : M (option response) :=
  match fields with
  | [] => ret None
  | field :: rest =>
      v ← value_get data field (VStr "");
      s ← value_strip v;
      if String.eqb s "" then
        ret (Some (Response (list_to_map [("error", VStr (field +:+ " is required"));
                                          ("field", VStr field)]) 400))
      else check_required data rest
  end.

(** [product_count != 5]. *)
Definition ne_5 (v : value) : bool :=
  match v with
  | VInt 5 => false
  | _ => true
  end.

(** The record written at submission. *)
Definition initial_entry (store_id : string) (n : nat) (timestamp : string)
  (user_data : gmap string value) : gmap string value :=
  list_to_map [
    ("store_id", VStr store_id);
    ("id", VInt (Z.of_nat n + 1));
    ("timestamp", VStr timestamp);
    ("user_data", VDict user_data);
    ("status", VStr "processing");
    ("current_step", VStr "queued");
    ("message", VStr "Starting store creation...");
    ("progress_percent", VInt 0);
    ("steps", VList []);
    ("store_url", VNone);
    ("admin_url", VNone);
    ("products_imported", VInt 0)
  ].

(** [executor.submit(run_automation_background, store_id, user_data)]: the
    task joins the executor's queue. *)
Definition executor_submit (t : task) : M unit := emit (EvSubmit t).

(** [data] is [request.get_json()], [r] the randomness of [uuid4] and
    [now] the clock reading of this request. *)
Definition api_create_store (data : value) (r : Z) (now : string) : M response :=
  try_except
    (if negb (truthy data) then
       ret (Response {[ "error" := VStr "JSON body required" ]} 400)
     else
       missing ← check_required data required_fields;
       match missing with
       | Some resp => ret resp
       | None =>
           email_v ← value_item data "email";
           email ← value_strip email_v;
           if negb (contains_char "@" email) || negb (contains_char "." email) then
             ret (Response (list_to_map [("error", VStr "Invalid email format");
                                         ("field", VStr "email")]) 400)
           else
             product_count ← value_get data "product_count" (VInt 5);
             let product_count := if ne_5 product_count then VInt 5 else product_count in
             let store_id := generate_store_id r in
             client_name ← (v ← value_item data "client_name"; value_strip v);
             store_name ← (v ← value_item data "store_name"; value_strip v);
             business_type ← (v ← value_item data "business_type"; value_strip v);
             product_category ← value_get data "product_category" (VStr "electronics");
             country ← value_get data "country" (VStr "US");
             let user_data : gmap string value := list_to_map [
               ("client_name", VStr client_name);
               ("email", VStr email);
               ("store_name", VStr store_name);
               ("business_type", VStr business_type);
               ("product_category", product_category);
               ("product_count", product_count);
               ("country", country)
             ] in
             h ← load_history;
             save_history (initial_entry store_id (length h) now user_data);;
             executor_submit (store_id, user_data);;
             ret (Response (list_to_map [("store_id", VStr store_id);
                                         ("status", VStr "processing");
                                         ("message", VStr "Store creation started")]) 202)
       end)
    (fun e => ret (Response {[ "error" := VStr (exc_msg e) ]} 500)).

(** ** The stage operations *)

(** The four external operations and the session's [quit], as the
    orchestrator sees them: each call returns or raises.

    - [create_store_op email store_name country business_type] is
      [ShopifyAccountCreator().create_store(...)]: the pair
      [(store_data, driver)].
    - [get_token_op store_url driver] is [AccessTokenManager().get_token(...)]:
      the token, or [None].
    - [import_products_op access_token store_url category count] is
      [ProductImporter(access_token, store_url).import_products(...)].
    - [transfer_op access_token store_url email] is
      [OwnershipTransfer(...).transfer_to_customer(email)].
    - [quit_op hd n] is the outcome of [hd.quit()] when [n] calls of [quit]
      were made before. *)
Record services : Type := Services {
  create_store_op : value -> value -> value -> value -> result (value * option handle);
  get_token_op : value -> option handle -> result (option string);
  import_products_op : string -> value -> value -> value -> result (list (gmap string value));
  transfer_op : string -> value -> value -> result value;
  quit_op : handle -> nat -> result unit;
  clock : nat -> string
}.

Definition is_quit (ev : event) : bool :=
  match ev with EvQuit _ _ => true | _ => false end.

(** The number of times [quit] was invoked. *)
Definition count_quits (evs : list event) : nat := length (List.filter is_quit evs).

(** [datetime.now().strftime(...)]. *)
Definition now_str (sv : services) : M string :=
  fun w => (Ret (clock sv (length (events w))), w).

(** Entering a stage operation. *)
Definition call {A} (s : stage) (r : result A) : M A :=
  emit (EvCall s);; lift_result r.

(** [browser_session.quit()]. *)
Definition session_quit (sv : services) (hd : handle) : M unit :=
  fun w =>
    let r := quit_op sv hd (count_quits (events w)) in
    (r, {| db := db w; events := EvQuit hd (is_Ret r) :: events w;
           browser_session := browser_session w;
           automation_log := automation_log w |}).

Definition set_browser_session (b : option handle) : M unit :=
  fun w => (Ret tt, {| db := db w; events := events w;
                       browser_session := b;
                       automation_log := automation_log w |}).

Definition get_browser_session : M (option handle) :=
  fun w => (Ret (browser_session w), w).

Definition set_automation_log (l : option (gmap string value)) : M unit :=
  fun w => (Ret tt, {| db := db w; events := events w;
                       browser_session := browser_session w;
                       automation_log := l |}).

Definition get_automation_log : M (option (gmap string value)) :=
  fun w => (Ret (automation_log w), w).

(** [d[k]] on a dict. *)
Definition dict_item (d : gmap string value) (k : string) : M value :=
  match d !! k with
  | Some v => ret v
  | None => raise (Exc KeyError k)
  end.

(** [if not store_data or not store_data.get('store_url'): raise ValueError]
    and the dict behind [store_data] when the test passes. *)
Definition check_store_data (store_data : value) : M (gmap string value) :=
  if negb (truthy store_data) then
    raise (Exc ValueError "Failed to create store: No store URL returned")
  else
    match store_data with
    | VDict d =>
        if negb (truthy (dict_get d "store_url")) then
          raise (Exc ValueError "Failed to create store: No store URL returned")
        else ret d
    | _ => raise (Exc AttributeError "object has no attribute 'get'")
    end.

(** [if not access_token: raise ValueError]. *)
Definition check_access_token (access_token : option string) : M string :=
  match access_token with
  | Some t => if String.eqb t "" then raise (Exc ValueError "Failed to retrieve access token")
              else ret t
  | None => raise (Exc ValueError "Failed to retrieve access token")
  end.

(** ** The background orchestrator ([run_automation_background], lines 387-505) *)

(** Close browser after token extraction:
    [if browser_session: try: quit(); browser_session = None  except: pass]. *)
Definition close_after_token (sv : services) : M unit :=
  b ← get_browser_session;
  match b with
  | Some hd => try_except (session_quit sv hd;; set_browser_session None) (fun _ => ret tt)
  | None => ret tt
  end.

(** Ensure browser is closed on error:
    [if browser_session: try: quit()  except: pass]. *)
Definition close_on_error (sv : services) : M unit :=
  b ← get_browser_session;
  match b with
  | Some hd => try_except (session_quit sv hd) (fun _ => ret tt)
  | None => ret tt
  end.

Definition upd_create_account : gmap string value :=
  list_to_map [("current_step", VStr "create_account");
               ("message", VStr "Creating your store...");
               ("progress_percent", VInt 10)].

Definition upd_store_created (store_data : gmap string value) : gmap string value :=
  list_to_map [("progress_percent", VInt 25);
               ("shopify_store_url", dict_get store_data "store_url");
               ("shopify_store_id", dict_get store_data "store_id")].

Definition upd_access_token : gmap string value :=
  list_to_map [("current_step", VStr "access_token");
               ("message", VStr "Preparing store configuration...");
               ("progress_percent", VInt 30)].

Definition upd_token_done : gmap string value :=
  list_to_map [("progress_percent", VInt 50)].

Definition upd_import_products : gmap string value :=
  list_to_map [("current_step", VStr "import_products");
               ("message", VStr "Uploading products...");
               ("progress_percent", VInt 55)].

Definition upd_imported (n : nat) : gmap string value :=
  list_to_map [("progress_percent", VInt 75);
               ("products_imported", VInt (Z.of_nat n))].

Definition upd_transfer_ownership : gmap string value :=
  list_to_map [("current_step", VStr "transfer_ownership");
               ("message", VStr "Finalizing setup and ownership transfer...");
               ("progress_percent", VInt 85)].

Definition upd_completed (store_url : value) (store_data : gmap string value)
  (now : string) : gmap string value :=
  list_to_map [("status", VStr "completed");
               ("current_step", VStr "completed");
               ("message", VStr "Your store is ready!");
               ("progress_percent", VInt 100);
               ("store_url", store_url);
               ("admin_url", dict_get store_data "admin_url");
               ("completed_at", VStr now)].

Definition upd_failed (e : exn) (now : string) : gmap string value :=
  list_to_map [("status", VStr "failed");
               ("message", VStr "Store creation failed");
               ("error", VStr (exc_msg e));
               ("failed_at", VStr now)].

Definition run_automation_background (sv : services) (store_id : string)
  (user_data : gmap string value) : M unit :=
  set_browser_session None;;
  try_except
    ((* Step 1: Create Shopify Account *)
     update_entry_status store_id upd_create_account;;
     email ← dict_item user_data "email";
     store_name ← dict_item user_data "store_name";
     let country := dict_get_default user_data "country" (VStr "US") in
     business_type ← dict_item user_data "business_type";
     created ← call StCreateStore (create_store_op sv email store_name country business_type);
     set_browser_session (snd created);;
     store_data ← check_store_data (fst created);
     update_entry_status store_id (upd_store_created store_data);;
     (* Step 2: Get Access Token *)
     update_entry_status store_id upd_access_token;;
     store_url ← dict_item store_data "store_url";
     driver ← get_browser_session;
     token ← call StGetToken (get_token_op sv store_url driver);
     access_token ← check_access_token token;
     close_after_token sv;;
     update_entry_status store_id upd_token_done;;
     (* Step 3: Import Products *)
     update_entry_status store_id upd_import_products;;
     let category := dict_get_default user_data "product_category" (VStr "electronics") in
     count ← dict_item user_data "product_count";
     imported_products ← call StImportProducts
                           (import_products_op sv access_token store_url category count);
     update_entry_status store_id (upd_imported (length imported_products));;
     (* Step 4: Transfer Ownership *)
     update_entry_status store_id upd_transfer_ownership;;
     email' ← dict_item user_data "email";
     call StTransferOwnership (transfer_op sv access_token store_url email');;
     (* Complete! *)
     now ← now_str sv;
     update_entry_status store_id (upd_completed store_url store_data now))
    (fun e =>
       close_on_error sv;;
       now ← now_str sv;
       update_entry_status store_id (upd_failed e now)).

(** ** The synchronous orchestrator ([create_store], [app.py] lines 104-333) *)

Definition is_digit (c : ascii) : bool :=
  match Ascii.is_nat c with Some _ => true | None => false end.

(** Decimal digits, with single underscores allowed between digits. *)
Fixpoint parse_digits (s : string) (acc : Z) : option Z :=
  match s with
  | EmptyString => Some acc
  | String c s' =>
      match Ascii.is_nat c with
      | Some d => parse_digits s' (10 * acc + Z.of_nat d)%Z
      | None =>
          if Ascii.eqb c "_" then
            match s' with
            | String c' _ => if is_digit c' then parse_digits s' acc else None
            | EmptyString => None
            end
          else None
      end
  end.

Definition parse_unsigned (s : string) : option Z :=
  match s with
  | String c _ => if is_digit c then parse_digits s 0 else None
  | EmptyString => None
  end.

(** [int(s)] for a string [s]; [None] stands for [ValueError]. *)
Definition py_int (s : string) : option Z :=
  match strip s with
  | String "+" s' => parse_unsigned s'
  | String "-" s' => Z.opp <$> parse_unsigned s'
  | s' => parse_unsigned s'
  end.

(** [render_template('success.html', ...)] and
    [render_template('error.html', ...)]. *)
Inductive page : Type :=
| SuccessPage (store_url store_name : value) (products_count : nat)
    (customer_email : value) (log : gmap string value)
| ErrorPage (error : string) (log : option (gmap string value)).

(** [request.form.get(k, dflt).strip()]. *)
Definition form_get_strip (form : gmap string string) (k dflt : string) : string :=
  strip (default dflt (form !! k)).

(** [int(request.form.get('product_count', 5))]. *)
Definition form_product_count (form : gmap string string) : M Z :=
  match form !! "product_count" with
  | None => ret 5%Z
  | Some s => match py_int s with
              | Some z => ret z
              | None => raise (Exc ValueError "invalid literal for int() with base 10")
              end
  end.

(** The [steps] list of a log. *)
Definition log_steps (log : gmap string value) : list value :=
  match log !! "steps" with
  | Some (VList l) => l
  | _ => []
  end.

(** [automation_log['steps'].append(step)]. *)
Definition log_append_step (step : gmap string value) : M unit :=
  l ← get_automation_log;
  match l with
  | Some log => set_automation_log
                  (Some (<["steps" := VList (log_steps log ++ [VDict step])]> log))
  | None => raise (Exc TypeError "'NoneType' object is not subscriptable")
  end.

(** [d.update(upd)] on the last element of a list of dicts. *)
Fixpoint update_last (upd : gmap string value) (l : list value) : list value :=
  match l with
  | [] => []
  | [VDict d] => [VDict (upd ∪ d)]
  | v :: l' => v :: update_last upd l'
  end.

(** The assignments [automation_log['steps'][-1][k] = v], grouped in [upd]. *)
Definition log_update_last_step (upd : gmap string value) : M unit :=
  l ← get_automation_log;
  match l with
  | Some log => set_automation_log
                  (Some (<["steps" := VList (update_last upd (log_steps log))]> log))
  | None => raise (Exc TypeError "'NoneType' object is not subscriptable")
  end.

(** The assignments [automation_log[k] = v], grouped in [upd]. *)
Definition log_update (upd : gmap string value) : M unit :=
  l ← get_automation_log;
  match l with
  | Some log => set_automation_log (Some (upd ∪ log))
  | None => raise (Exc TypeError "'NoneType' object is not subscriptable")
  end.

Definition step_started (name now : string) : gmap string value :=
  list_to_map [("step", VStr name); ("status", VStr "started"); ("timestamp", VStr now)].

(** [access_token[:15] + '...']. *)
Definition token_preview (access_token : string) : string :=
  substring 0 15 access_token +:+ "...".

(** [if not browser_session: raise ValueError]. *)
Definition check_browser_session : M unit :=
  b ← get_browser_session;
  match b with
  | Some _ => ret tt
  | None => raise (Exc ValueError "CRITICAL: No browser session received from createStore")
  end.

Definition create_store (sv : services) (form : gmap string string) : M page :=
  set_automation_log None;;
  set_browser_session None;;
  try_except
    ((* validate user input *)
     let email := form_get_strip form "email" "" in
     let store_name := form_get_strip form "store_name" "" in
     let country := form_get_strip form "country" "US" in
     let business_type := form_get_strip form "business_type" "ecommerce" in
     let product_category := form_get_strip form "product_category" "electronics" in
     product_count ← form_product_count form;
     let user_data : gmap string value := list_to_map [
       ("email", VStr email);
       ("store_name", VStr store_name);
       ("country", VStr country);
       ("business_type", VStr business_type);
       ("product_category", VStr product_category);
       ("product_count", VInt product_count)
     ] in
     (if String.eqb email "" then raise (Exc ValueError "Email is required") else ret tt);;
     (if String.eqb store_name "" then raise (Exc ValueError "Store Name is required")
      else ret tt);;
     (if negb (contains_char "@" email) then raise (Exc ValueError "Invalid email format")
      else ret tt);;
     (if (product_count <? 1)%Z || (50 <? product_count)%Z
      then raise (Exc ValueError "Product count must be between 1 and 50") else ret tt);;
     (* initialise the automation log *)
     h ← load_history;
     now ← now_str sv;
     set_automation_log (Some (list_to_map [
       ("id", VInt (Z.of_nat (length h) + 1));
       ("timestamp", VStr now);
       ("user_data", VDict user_data);
       ("status", VStr "in_progress");
       ("steps", VList []);
       ("store_url", VNone);
       ("store_id", VNone)
     ]));;
     (* Step 1: create the store *)
     now ← now_str sv;
     log_append_step (step_started "create_account" now);;
     created ← call StCreateStore
                 (create_store_op sv (VStr email) (VStr store_name) (VStr country)
                    (VStr business_type));
     set_browser_session (snd created);;
     store_data ← check_store_data (fst created);
     check_browser_session;;
     log_update_last_step (list_to_map [
       ("status", VStr "completed");
       ("data", VDict (list_to_map [
          ("store_url", dict_get store_data "store_url");
          ("store_id", dict_get store_data "store_id");
          ("admin_url", dict_get store_data "admin_url");
          ("created_at", dict_get store_data "created_at")]))]);;
     log_update (list_to_map [("store_url", dict_get store_data "store_url");
                              ("store_id", dict_get store_data "store_id")]);;
     (* Step 2: get the access token *)
     now ← now_str sv;
     log_append_step (step_started "access_token" now);;
     store_url ← dict_item store_data "store_url";
     driver ← get_browser_session;
     token ← call StGetToken (get_token_op sv store_url driver);
     access_token ← check_access_token token;
     log_update_last_step (list_to_map [
       ("status", VStr "completed");
       ("token_created", VBool true);
       ("token_preview", VStr (token_preview access_token))]);;
     close_after_token sv;;
     (* Step 3: import products *)
     now ← now_str sv;
     log_append_step (step_started "import_products" now);;
     imported_products ← call StImportProducts
                           (import_products_op sv access_token store_url
                              (VStr product_category) (VInt product_count));
     log_update_last_step (list_to_map [
       ("status", VStr "completed");
       ("products_imported", VInt (Z.of_nat (length imported_products)));
       ("category", VStr product_category);
       ("requested_count", VInt product_count)]);;
     (* Step 4: transfer ownership *)
     now ← now_str sv;
     log_append_step (step_started "transfer_ownership" now);;
     transfer_result ← call StTransferOwnership
                         (transfer_op sv access_token store_url (VStr email));
     log_update_last_step (list_to_map [("status", VStr "completed");
                                        ("data", transfer_result)]);;
     (* mark as completed *)
     now ← now_str sv;
     log_update (list_to_map [("status", VStr "completed"); ("completed_at", VStr now)]);;
     l ← get_automation_log;
     save_history (default ∅ l);;
     ret (SuccessPage store_url (VStr store_name) (length imported_products)
            (VStr email) (default ∅ l)))
    (fun e =>
       close_on_error sv;;
       l ← get_automation_log;
       match l with
       | Some log =>
           if truthy (VDict log) then
             now ← now_str sv;
             log_update (list_to_map [("status", VStr "failed");
                                      ("error", VStr (exc_msg e));
                                      ("failed_at", VStr now)]);;
             l' ← get_automation_log;
             save_history (default ∅ l');;
             ret (ErrorPage (exc_msg e) l')
           else ret (ErrorPage (exc_msg e) l)
       | None => ret (ErrorPage (exc_msg e) None)
       end).

(** ** The catalog importer ([services/product.py]) *)

(** Exceptions in pure code. *)
#[export] Instance result_ret : MRet result := @Ret.
#[export] Instance result_bind : MBind result :=
  fun A B k r => match r with Ret a => k a | Raise e => Raise e end.

(** [s.lower()] on the letters below 128. *)
Definition lower_char (a : ascii) : ascii :=
  let n := nat_of_ascii a in
  if (65 <=? n) && (n <=? 90) then ascii_of_nat (n + 32) else a.

Fixpoint lower (s : string) : string :=
  match s with
  | EmptyString => EmptyString
  | String a s' => String (lower_char a) (lower s')
  end.

(** [p in s] on strings. *)
Fixpoint is_substring (p s : string) : bool :=
  String.prefix p s ||
  match s with
  | EmptyString => false
  | String _ s' => is_substring p s'
  end.

(** [v.lower()]: only strings have the method. *)
Definition value_lower (v : value) : result string :=
  match v with
  | VStr s => Ret (lower s)
  | _ => Raise (Exc AttributeError "object has no attribute 'lower'")
  end.

(** The [keywords_dict] of [load_ebay_products]: the three lists of
    [_get_search_keywords] and the [expected_product_type] added to them. *)
Record keywords : Type := Keywords {
  positive : list string;
  required : list string;
  negative : list string;
  expected_product_type : option string
}.

Definition str_truthy (s : string) : bool := negb (String.eqb s "").

Definition opt_str_truthy (o : option string) : bool :=
  match o with Some s => str_truthy s | None => false end.

Definition nonempty {A} (l : list A) : bool :=
  match l with [] => false | _ => true end.

(** The body of the loop of [_filter_by_keywords] for one product: [true]
    when the product is appended to [filtered]. *)
Definition keep_product (kw : keywords) (strict_mode : bool)
  (product : gmap string value) : result bool :=
  title ← value_lower (dict_get_default product "title"
                         (dict_get_default product "name" (VStr "")));
  description ← value_lower (dict_get_default product "description" (VStr ""));
  product_type ← value_lower (dict_get_default product "product_type" (VStr ""));
  let check_text := if strict_mode then title else title +:+ " " +:+ description in
  if opt_str_truthy (expected_product_type kw) && str_truthy product_type
     && negb (bool_decide (Some product_type = expected_product_type kw))
  then Ret false
  else if existsb (fun neg_word => is_substring (lower neg_word) title) (negative kw)
  then Ret false
  else if nonempty (required kw)
          && negb (existsb (fun req => is_substring (lower req) title) (required kw))
  then Ret false
  else if nonempty (positive kw)
          && negb (existsb (fun pos => is_substring (lower pos) check_text) (positive kw))
  then Ret false
  else Ret true.

Fixpoint filter_loop (kw : keywords) (strict_mode : bool)
  (products : list (gmap string value)) : result (list (gmap string value)) :=
  match products with
  | [] => Ret []
  | product :: rest =>
      keep ← keep_product kw strict_mode product;
      filtered ← filter_loop kw strict_mode rest;
      Ret (if (keep : bool) then product :: filtered else filtered)
  end.

Definition _filter_by_keywords (products : list (gmap string value)) (kw : keywords)
  (strict_mode : bool) : result (list (gmap string value)) :=
  if negb (nonempty (positive kw)) && negb (nonempty (required kw))
     && negb (nonempty (negative kw)) && negb (opt_str_truthy (expected_product_type kw))
  then Ret products
  else filter_loop kw strict_mode products.

(** What [requests.get(url, params={'limit': 1000}, timeout=30)] and the
    reading of its body give: an exception, or the status code with
    [all_products], the value found in the body under ['data'], ['results']
    or ['products'] (or the body itself when it is a list). *)
Inductive api_reply : Type :=
| ApiRaises (e : exn)
| ApiResponse (status_code : Z) (all_products : value).

(** The helpers of the importer that the selection and the upload consult.
    Prices and scores are Python floats, read as rationals.

    - [search_keywords] is [_get_search_keywords];
    - [extract_price] is [_extract_price];
    - [extract_images p scoring_mode] is [_extract_images];
    - [product_score] is the first component of [_calculate_product_score_v2];
    - [build_product] is the dict that [_parse_product] returns when it does
      not return [None], with [final_score] and [score_breakdown] added;
    - [upload_to_shopify p i] is the outcome of the [i]-th upload;
    - [random_sample] is [random.sample]. *)
Record importer_env : Type := ImporterEnv {
  api_products : string -> api_reply;
  api_all_products : api_reply;
  search_keywords : string -> keywords;
  extract_price : gmap string value -> Q;
  extract_images : gmap string value -> bool -> list string;
  product_score : gmap string value -> Q -> list string -> option keywords -> Q;
  build_product : gmap string value -> gmap string value;
  upload_to_shopify : gmap string value -> nat -> bool;
  random_sample : list (gmap string value) -> nat -> list (gmap string value)
}.

(** [EbayShopifyImporter.__init__], line 54:
    [self.max_products = min(max(max_products, 5), 30)]. *)
Definition init_max_products (max_products : value) : result Z :=
  match max_products with
  | VInt n => Ret (Z.min (Z.max n 5) 30)
  | VBool b => Ret (Z.min (Z.max (if b then 1 else 0) 5) 30)
  | _ => Raise (Exc TypeError "'>' not supported between instances")
  end.

(** [product.get('title', product.get('name', ''))]. *)
Definition product_title (product : gmap string value) : value :=
  dict_get_default product "title" (dict_get_default product "name" (VStr "")).

Definition price_truthy (q : Q) : bool := negb (Qeq_bool q 0).

(** An element of [scored_products]. *)
Record scored : Type := Scored {
  sc_product : gmap string value;
  sc_index : nat;
  sc_score : Q
}.

(** The scoring loop of [_select_best_products]. *)
Fixpoint score_products (env : importer_env) (kw : option keywords) (idx : nat)
  (products : list (gmap string value)) : list scored :=
  match products with
  | [] => []
  | product :: rest =>
      let title := product_title product in
      let price := extract_price env product in
      let images := extract_images env product true in
      if negb (truthy title) || negb (price_truthy price) || negb (nonempty images)
      then score_products env kw (S idx) rest
      else Scored product idx (product_score env product price images kw)
             :: score_products env kw (S idx) rest
  end.

(** [scored_products.sort(key=lambda x: x['score'], reverse=True)]: by
    decreasing score, elements of equal score keeping their order. *)
Fixpoint insert_by_score (x : scored) (l : list scored) : list scored :=
  match l with
  | [] => [x]
  | y :: l' =>
      if Qle_bool (sc_score y) (sc_score x) then x :: y :: l'
      else y :: insert_by_score x l'
  end.

Fixpoint sort_by_score (l : list scored) : list scored :=
  match l with
  | [] => []
  | x :: l' => insert_by_score x (sort_by_score l')
  end.

(** [l[:k]]. *)
Definition slice_to {A} (k : Z) (l : list A) : list A :=
  if (k <? 0)%Z then take (length l - Z.to_nat (- k)) l else take (Z.to_nat k) l.

(** [_parse_product], lines 1702-1741. *)
Definition _parse_product (env : importer_env) (item : scored) : option (gmap string value) :=
  let product := sc_product item in
  if negb (truthy (product_title product)) || negb (price_truthy (extract_price env product))
  then None
  else Some (build_product env product).

(** [_select_best_products], lines 669-758. *)
Definition _select_best_products (env : importer_env) (max_products : Z)
  (products : list (gmap string value)) (kw : option keywords)
  : result (list (gmap string value)) :=
  chosen ← match kw with
           | Some k =>
               filtered_products ← _filter_by_keywords products k true;
               if (Z.of_nat (length filtered_products) >=? max_products)%Z
               then Ret (Some filtered_products)
               else if (0 <? Z.of_nat (length filtered_products))%Z
               then Ret (Some filtered_products)
               else Ret None
           | None => Ret (Some products)
           end;
  match chosen with
  | None => Ret []
  | Some products =>
      let scored_products := sort_by_score (score_products env kw 0 products) in
      let selected := slice_to max_products scored_products in
      Ret (omap (_parse_product env) selected)
  end.

(** The [endpoint_mapping] table of [load_ebay_products]: the endpoint and
    the expected [product_type] of a category. *)
Definition endpoint_mapping : list (string * (string * option string)) := [
  ("phone case", ("cases", Some "case"));
  ("phone_case", ("cases", Some "case"));
  ("phone cases", ("cases", Some "case"));
  ("phone_cases", ("cases", Some "case"));
  ("case", ("cases", Some "case"));
  ("cases", ("cases", Some "case"));
  ("cover", ("cases", Some "case"));
  ("covers", ("cases", Some "case"));
  ("charger", ("chargers", Some "charger"));
  ("chargers", ("chargers", Some "charger"));
  ("cable", ("chargers", Some "charger"));
  ("cables", ("chargers", Some "charger"));
  ("adapter", ("chargers", Some "charger"));
  ("adapters", ("chargers", Some "charger"));
  ("charging", ("chargers", Some "charger"));
  ("phone", ("phones", Some "phone"));
  ("phones", ("phones", Some "phone"));
  ("mobile", ("phones", Some "phone"));
  ("smartphone", ("phones", Some "phone"));
  ("iphone", ("phones", Some "phone"));
  ("samsung", ("phones", Some "phone"));
  ("android", ("phones", Some "phone"));
  ("tablet", ("tablets", Some "tablet"));
  ("tablets", ("tablets", Some "tablet"));
  ("ipad", ("tablets", Some "tablet"));
  ("headphones", ("audio", Some "audio"));
  ("headphone", ("audio", Some "audio"));
  ("earphones", ("audio", Some "audio"));
  ("earphone", ("audio", Some "audio"));
  ("airpods", ("audio", Some "audio"));
  ("airpod", ("audio", Some "audio"));
  ("earbuds", ("audio", Some "audio"));
  ("earbud", ("audio", Some "audio"));
  ("audio", ("audio", Some "audio"));
  ("buds", ("audio", Some "audio"));
  ("watch", ("smartwatches", Some "smartwatch"));
  ("watches", ("smartwatches", Some "smartwatch"));
  ("smartwatch", ("smartwatches", Some "smartwatch"));
  ("smart watch", ("smartwatches", Some "smartwatch"));
  ("apple watch", ("smartwatches", Some "smartwatch"));
  ("accessories", ("accessories", Some "accessory"));
  ("accessory", ("accessories", Some "accessory"));
  ("power bank", ("accessories", Some "power_bank"));
  ("powerbank", ("accessories", Some "power_bank"));
  ("screen protector", ("accessories", Some "screen_protector"));
  ("ebook", ("by-type/other", None));
  ("kindle", ("by-type/other", None));
  ("reader", ("by-type/other", None))
].

Fixpoint assoc {A} (k : string) (l : list (string * A)) : option A :=
  match l with
  | [] => None
  | (k', v) :: l' => if String.eqb k' k then Some v else assoc k l'
  end.

(** The products behind [all_products]: iterating over it and calling
    [.get] on every element works only for a list of dicts. *)
Fixpoint as_dicts (l : list value) : result (list (gmap string value)) :=
  match l with
  | [] => Ret []
  | VDict d :: l' => ds ← as_dicts l'; Ret (d :: ds)
  | _ :: _ => Raise (Exc AttributeError "object has no attribute 'get'")
  end.

Definition as_products (all_products : value) : result (list (gmap string value)) :=
  match all_products with
  | VList l => as_dicts l
  | VStr _ | VDict _ => Raise (Exc AttributeError "'str' object has no attribute 'get'")
  | _ => Raise (Exc TypeError "object is not iterable")
  end.

(** [p.get('product_type') == expected_product_type]. *)
Definition has_product_type (expected : string) (p : gmap string value) : bool :=
  match p !! "product_type" with
  | Some (VStr s) => String.eqb s expected
  | _ => false
  end.

(** [_fallback_load_all_products], lines 416-467. *)
Definition _fallback_load_all_products (env : importer_env) (max_products : Z)
  (kw : keywords) : list (gmap string value) :=
  let body : result (list (gmap string value)) :=
    match api_all_products env with
    | ApiRaises e => Raise e
    | ApiResponse status_code all_products =>
        if negb (status_code =? 200)%Z then Ret []
        else if negb (truthy all_products) then Ret []
        else
          products ← as_products all_products;
          filtered ← _filter_by_keywords products kw true;
          if nonempty filtered then _select_best_products env max_products filtered (Some kw)
          else
            let sample := random_sample env products (Nat.min 50 (length products)) in
            _select_best_products env max_products sample (Some kw)
    end in
  match body with
  | Ret l => l
  | Raise _ => []
  end.

(** [load_ebay_products], lines 92-253, for a category that is a string. *)
Definition load_ebay_products_str (env : importer_env) (max_products : Z)
  (search_category : string) : list (gmap string value) :=
  let category_lower := strip (lower search_category) in
  let endpoint_info := default ("accessories", None) (assoc category_lower endpoint_mapping) in
  let api_endpoint := fst endpoint_info in
  let expected := snd endpoint_info in
  let kw := {| positive := positive (search_keywords env search_category);
               required := required (search_keywords env search_category);
               negative := negative (search_keywords env search_category);
               expected_product_type := expected |} in
  let body : result (list (gmap string value)) :=
    match api_products env api_endpoint with
    | ApiRaises e => Raise e
    | ApiResponse status_code all_products =>
        if negb (status_code =? 200)%Z
        then Ret (_fallback_load_all_products env max_products kw)
        else if negb (truthy all_products)
        then Ret (_fallback_load_all_products env max_products kw)
        else
          products ← as_products all_products;
          let products :=
            match expected with
            | Some t =>
                if str_truthy t then
                  let filtered_by_type := List.filter (has_product_type t) products in
                  if nonempty filtered_by_type then filtered_by_type else products
                else products
            | None => products
            end in
          _select_best_products env max_products products (Some kw)
    end in
  match body with
  | Ret l => l
  | Raise _ => []
  end.

(** [search_category.lower()] is evaluated inside the [try] block: a category
    that is not a string gives the empty list. *)
Definition load_ebay_products (env : importer_env) (max_products : Z)
  (search_category : value) : list (gmap string value) :=
  match search_category with
  | VStr s => load_ebay_products_str env max_products s
  | _ => []
  end.

(** The part of the dict returned by [EbayShopifyImporter.import_products]
    that its callers read. *)
Record import_result : Type := ImportResult {
  success : bool;
  uploaded : nat;
  failed : nat;
  products : list (gmap string value)
}.

(** [if 'images' not in product or not product['images']:
       product['images'] = self._extract_images(product)]. *)
Definition ensure_images (env : importer_env) (product : gmap string value)
  : gmap string value :=
  match product !! "images" with
  | Some v => if truthy v then product
              else <["images" := VList (VStr <$> extract_images env product false)]> product
  | None => <["images" := VList (VStr <$> extract_images env product false)]> product
  end.

(** The upload loop: the products whose upload succeeded, in order. *)
Fixpoint upload_loop (env : importer_env) (i : nat) (products : list (gmap string value))
  : list (gmap string value) :=
  match products with
  | [] => []
  | product :: rest =>
      let product := ensure_images env product in
      if upload_to_shopify env product i
      then product :: upload_loop env (S i) rest
      else upload_loop env (S i) rest
  end.

(** [EbayShopifyImporter.import_products], lines 2640-2770. *)
Definition ebay_import_products (env : importer_env) (max_products : Z)
  (search_category : value) : import_result :=
  let products := load_ebay_products env max_products search_category in
  if negb (nonempty products) then
    {| success := false; uploaded := 0; failed := 0; products := [] |}
  else
    let uploaded_products := upload_loop env 1 products in
    {| success := true;
       uploaded := length uploaded_products;
       failed := length products - length uploaded_products;
       products := uploaded_products |}.

(** [ProductImporter(access_token, store_url).import_products(category, count)],
    lines 2782-2814.  The store and the token only address the HTTP calls,
    which [env] answers. *)
Definition import_products (env : importer_env) (access_token : string)
  (store_url category count : value) : result (list (gmap string value)) :=
  match store_url with
  | VStr _ =>
      max_products ← init_max_products count;
      let result := ebay_import_products env max_products category in
      if success result then Ret (products result) else Ret []
  | _ => Raise (Exc AttributeError "object has no attribute 'replace'")
  end.

(** ** Reading the progress store *)

(** The record of a job in a snapshot of the store, as
    [get_entry_by_store_id] finds it. *)
Definition job_field (store_id k : string) (h : list (gmap string value)) : option value :=
  e ← find_entry store_id h; e !! k.

(** [entry.get('progress_percent', 0)], the figure served by
    [api_get_store_status]. *)
Definition job_percent (store_id : string) (h : list (gmap string value)) : option Z :=
  e ← find_entry store_id h;
  match dict_get_default e "progress_percent" (VInt 0) with
  | VInt p => Some p
  | _ => None
  end.

Definition job_status (store_id : string) (h : list (gmap string value)) : option value :=
  job_field store_id "status" h.

(** The successive contents of the database file written during a run. *)
Fixpoint writes (tr : list event) : list (list (gmap string value)) :=
  match tr with
  | [] => []
  | EvWrite h :: tr' => h :: writes tr'
  | _ :: tr' => writes tr'
  end.




(** [l1] is a prefix of [l2]. *)
Fixpoint is_prefix_of (l1 l2 : list string) : bool :=
  match l1, l2 with
  | [], _ => true
  | x :: l1', y :: l2' => String.eqb x y && is_prefix_of l1' l2'
  | _ :: _, [] => false
  end.

(** The handle is closed before the catalog import starts: reading the
    trace in order, a [quit] comes before any call of stage 3 or 4. *)
Fixpoint quit_before_stage3 (tr : list event) : bool :=
  match tr with
  | [] => false
  | EvQuit _ _ :: _ => true
  | EvCall StImportProducts :: _ => false
  | EvCall StTransferOwnership :: _ => false
  | _ :: tr' => quit_before_stage3 tr'
  end.

Definition quits_on (hd : handle) (tr : list event) : bool :=
  forallb (fun ev => match ev with EvQuit hd' _ => Nat.eqb hd' hd | _ => true end) tr.

(** The submissions queued on the executor, in order. *)
Fixpoint submitted (tr : list event) : list task :=
  match tr with
  | [] => []
  | EvSubmit t :: tr' => t :: submitted tr'
  | _ :: tr' => submitted tr'
  end.

(** The store can be read: the file is missing, holds records, or fails to
    parse as JSON. *)
Definition readable (f : db_file) : bool :=
  match f with
  | Absent => true
  | ReadFails e => is_JSONDecodeError e
  | Stored _ => true
  end.

(** The records a reader gets from a readable store. *)
Definition records (f : db_file) : list (gmap string value) :=
  match f with
  | Stored h => h
  | _ => []
  end.

(** The world after [json.dump(h, f)]. *)
Definition with_write (h : list (gmap string value)) (w : world) : world :=
  {| db := Stored h; events := EvWrite h :: events w;
     browser_session := browser_session w; automation_log := automation_log w |}.


(** ** Accepted submissions *)

(** [data.get(field, '').strip()] is a non-empty string. *)
Definition field_ok (d : gmap string value) (field : string) : bool :=
  match d !! field with
  | Some (VStr s) => negb (String.eqb (strip s) "")
  | _ => false
  end.

(** The e-mail address of a body, stripped. *)
Definition body_email (d : gmap string value) : string :=
  match d !! "email" with
  | Some (VStr s) => strip s
  | _ => ""
  end.

(** The body passes the checks of [api_create_store]: the four required
    fields are non-blank strings and the address has an [@] and a dot. *)
Definition valid_submission (d : gmap string value) : bool :=
  forallb (field_ok d) required_fields
  && contains_char "@" (body_email d) && contains_char "." (body_email d).

(** [data[field].strip()] for a required field of a valid body. *)
Definition body_str (d : gmap string value) (field : string) : string :=
  match d !! field with
  | Some (VStr s) => strip s
  | _ => ""
  end.

(** The [user_data] that [api_create_store] builds from a valid body. *)
Definition submitted_user_data (d : gmap string value) : gmap string value :=
  list_to_map [
    ("client_name", VStr (body_str d "client_name"));
    ("email", VStr (body_str d "email"));
    ("store_name", VStr (body_str d "store_name"));
    ("business_type", VStr (body_str d "business_type"));
    ("product_category", dict_get_default d "product_category" (VStr "electronics"));
    ("product_count", VInt 5);
    ("country", dict_get_default d "country" (VStr "US"))
  ].

(** The 202 response. *)
Definition accepted (store_id : string) : response :=
  Response (list_to_map [("store_id", VStr store_id);
                         ("status", VStr "processing");
                         ("message", VStr "Store creation started")]) 202.


(** ** Example environments *)

(** [TABLET_KEYWORDS] of [_get_search_keywords]; the examples only import
    from the tablet category. *)
Definition tablet_keywords : keywords :=
  {| positive := ["tablet"; "ipad"; "galaxy tab"; "surface"];
     required := [];
     negative := ["phone"; "watch"; "case"; "cover"];
     expected_product_type := None |}.

Definition catalog_item (title product_type : string) : value :=
  VDict (list_to_map [("title", VStr title); ("product_type", VStr product_type)]).

(** An importer whose catalog endpoint answers 200 with [catalog], in which
    every product has a price and an image and every upload succeeds. *)
Definition example_env (catalog : list value) : importer_env :=
  {| api_products := fun _ => ApiResponse 200 (VList catalog);
     api_all_products := ApiResponse 200 (VList catalog);
     search_keywords := fun _ => tablet_keywords;
     extract_price := fun _ => (1999 # 100)%Q;
     extract_images := fun _ _ => ["https://img.example/1.jpg"];
     product_score := fun _ _ _ _ => 0%Q;
     build_product := fun p => <["price" := VStr "19.99"]> (<["images" := VList [VStr "https://img.example/1.jpg"]]> p);
     upload_to_shopify := fun _ _ => true;
     random_sample := fun l n => take n l |}.

(** Five catalog items, of which two are tablets that match the keywords. *)
Definition two_matching : list value := [
  catalog_item "Apple iPad Air 11" "tablet";
  catalog_item "Leather case for iPad" "tablet";
  catalog_item "Galaxy Tab S9 tablet" "tablet";
  catalog_item "Kindle e-reader" "tablet";
  catalog_item "Car phone holder" "accessory"
].

(** Six matching tablets. *)
Definition six_matching : list value := [
  catalog_item "Tablet A" "tablet"; catalog_item "Tablet B" "tablet";
  catalog_item "Tablet C" "tablet"; catalog_item "Tablet D" "tablet";
  catalog_item "Tablet E" "tablet"; catalog_item "Tablet F" "tablet"
].

Definition example_store_data : gmap string value :=
  list_to_map [("store_url", VStr "https://foo.myshopify.com");
               ("store_id", VStr "foo");
               ("admin_url", VStr "https://foo.myshopify.com/admin");
               ("created_at", VStr "2025-01-01 10:00:00")].

(** Services in which every stage succeeds, the session is handle 1, the
    import is the importer over [env], and [quit] raises on the calls
    selected by [quit_raises]. *)
Definition example_services (env : importer_env) (quit_raises : nat -> bool) : services :=
  {| create_store_op := fun _ _ _ _ => Ret (VDict example_store_data, Some 1);
     get_token_op := fun _ _ => Ret (Some "shpat_0123456789abcdef");
     import_products_op := import_products env;
     transfer_op := fun _ _ _ => Ret (VDict {[ "status" := VStr "invited" ]});
     quit_op := fun _ n => if quit_raises n then Raise (Exc Exception "session not reachable")
                           else Ret tt;
     clock := fun _ => "2025-01-01 10:00:00" |}.

(** The same, with an import that raises. *)
Definition failing_import_services (quit_raises : nat -> bool) : services :=
  {| create_store_op := fun _ _ _ _ => Ret (VDict example_store_data, Some 1);
     get_token_op := fun _ _ => Ret (Some "shpat_0123456789abcdef");
     import_products_op := fun _ _ _ _ => Raise (Exc Exception "report directory not writable");
     transfer_op := fun _ _ _ => Ret (VDict {[ "status" := VStr "invited" ]});
     quit_op := fun _ n => if quit_raises n then Raise (Exc Exception "session not reachable")
                           else Ret tt;
     clock := fun _ => "2025-01-01 10:00:00" |}.

Definition example_body : gmap string value :=
  list_to_map [("client_name", VStr "Ann"); ("store_name", VStr "Foo");
               ("email", VStr "a@b.com"); ("business_type", VStr "shop");
               ("product_category", VStr "tablet"); ("product_count", VInt 5)].

Definition example_form (product_count : string) : gmap string string :=
  list_to_map [("email", "a@b.com"); ("store_name", "Foo");
               ("product_category", "tablet"); ("product_count", product_count)].


(** ** Observations on a run *)




(** The calls of [quit] that returned. *)
Definition count_closed (tr : list event) : nat :=
  length (List.filter (fun ev => match ev with EvQuit _ true => true | _ => false end) tr).

(** Stage 2 fails: [get_token] raises, or returns [None] or an empty token. *)
Definition token_fails (r : result (option string)) : bool :=
  match r with
  | Ret (Some t) => String.eqb t ""
  | Ret None => true
  | Raise _ => true
  end.


(** ** The query endpoints ([app.py], lines 339-381 and 607-651) *)

(** [entry.get('status') == s] for a string [s]. *)
Definition status_is (s : string) (e : gmap string value) : bool :=
  match e !! "status" with
  | Some (VStr s') => String.eqb s' s
  | _ => false
  end.

(** [api_get_store_status]: the answer to a poll for [store_id].  An
    exception of [load_history] is not caught here. *)
Definition api_get_store_status (store_id : string) : M response :=
  entry ← get_entry_by_store_id store_id;
  match entry with
  | None => ret (Response {[ "error" := VStr "Store not found" ]} 404)
  | Some e =>
      if negb (truthy (VDict e)) then
        ret (Response {[ "error" := VStr "Store not found" ]} 404)
      else
        let response : gmap string value := list_to_map [
          ("store_id", VStr store_id);
          ("status", dict_get_default e "status" (VStr "processing"));
          ("current_step", dict_get_default e "current_step" (VStr "queued"));
          ("message", dict_get_default e "message" (VStr "Processing..."));
          ("progress_percent", dict_get_default e "progress_percent" (VInt 0));
          ("created_at", dict_get e "timestamp")
        ] in
        let response :=
          if status_is "completed" e then
            <["completed_at" := dict_get e "completed_at"]>
              (<["products_count" := dict_get_default e "products_imported" (VInt 0)]>
                 (<["admin_url" := dict_get e "admin_url"]>
                    (<["store_url" := dict_get e "store_url"]> response)))
          else response in
        let response :=
          if status_is "failed" e then
            <["failed_at" := dict_get e "failed_at"]>
              (<["error" := dict_get_default e "error" (VStr "Unknown error")]> response)
          else response in
        ret (Response response 200)
  end.

(** [entry.get('id') == store_id] for an integer [store_id]. *)
Definition has_id (id : Z) (e : gmap string value) : bool :=
  match e !! "id" with
  | Some (VInt z) => (z =? id)%Z
  | Some (VBool b) => ((if b then 1 else 0) =? id)%Z
  | _ => false
  end.

(** [get_status], the lookup by sequence number: the record itself, or 404. *)
Definition get_status (id : Z) : M response :=
  h ← load_history;
  match List.find (has_id id) h with
  | Some e => ret (Response e 200)
  | None => ret (Response {[ "error" := VStr "Store not found" ]} 404)
  end.

(** [get_all_history]. *)
Definition get_all_history : M response :=
  h ← load_history;
  ret (Response (list_to_map [("total", VInt (Z.of_nat (length h)));
                              ("stores", VList (VDict <$> h))]) 200).

(** [sum(1 for entry in history if entry.get('status') == s)]. *)
Definition count_status (s : string) (h : list (gmap string value)) : nat :=
  length (List.filter (status_is s) h).

(** [step.get('step') == 'import_products'] on an element of a steps list;
    only a dict has [get]. *)
Definition is_import_step (step : value) : result bool :=
  match step with
  | VDict d => Ret (match d !! "step" with
                    | Some (VStr s) => String.eqb s "import_products"
                    | _ => false
                    end)
  | _ => Raise (Exc AttributeError "object has no attribute 'get'")
  end.

(** A summand [step.get('products_imported', 0)]: an integer (a boolean
    counts as 0 or 1), anything else cannot be added. *)
Definition imported_of_step (step : value) : result Z :=
  match step with
  | VDict d =>
      match dict_get_default d "products_imported" (VInt 0) with
      | VInt z => Ret z
      | VBool b => Ret (if b then 1 else 0)%Z
      | _ => Raise (Exc TypeError "unsupported operand type(s) for +")
      end
  | _ => Raise (Exc AttributeError "object has no attribute 'get'")
  end.

(** The sum over the steps of one entry. *)
Fixpoint sum_import_steps (steps : list value) : result Z :=
  match steps with
  | [] => Ret 0%Z
  | step :: rest =>
      keep ← is_import_step step;
      n ← (if (keep : bool) then imported_of_step step else Ret 0%Z);
      m ← sum_import_steps rest;
      Ret (n + m)%Z
  end.

(** [entry.get('steps', [])], which the generator iterates over. *)
Definition entry_steps (e : gmap string value) : result (list value) :=
  match dict_get_default e "steps" (VList []) with
  | VList l => Ret l
  | VDict _ | VStr _ => Raise (Exc AttributeError "'str' object has no attribute 'get'")
  | _ => Raise (Exc TypeError "object is not iterable")
  end.

(** [total_products] of [get_stats]. *)
Fixpoint total_products (h : list (gmap string value)) : result Z :=
  match h with
  | [] => Ret 0%Z
  | e :: rest =>
      steps ← entry_steps e;
      n ← sum_import_steps steps;
      m ← total_products rest;
      Ret (n + m)%Z
  end.

(** The counters of [get_stats] (the [success_rate] string, a formatted
    float, is left out). *)
Record stats : Type := Stats {
  total_stores : nat;
  completed : nat;
  failed_count : nat;
  in_progress : nat;
  total_products_imported : Z
}.

Definition get_stats : M stats :=
  h ← load_history;
  tp ← lift_result (total_products h);
  ret {| total_stores := length h;
         completed := count_status "completed" h;
         failed_count := count_status "failed" h;
         in_progress := count_status "in_progress" h;
         total_products_imported := tp |}.


(** The [id] of every record is its position in the store, counted from 1. *)
Definition ids_sequential (h : list (gmap string value)) : Prop :=
  forall (i : nat) (e : gmap string value),
    h !! i = Some e -> e !! "id" = Some (VInt (Z.of_nat i + 1)).

(** The stages called during a run, in order. *)
Definition stage_calls (tr : list event) : list stage :=
  omap (fun ev => match ev with EvCall s => Some s | _ => None end) tr.

Definition all_stages : list stage :=
  [StCreateStore; StGetToken; StImportProducts; StTransferOwnership].


(** The catalog endpoint cannot be used: the request raises or the status is
    not 200. *)
Definition api_down (reply : api_reply) : Prop :=
  match reply with
  | ApiRaises _ => True
  | ApiResponse status_code _ => status_code <> 200%Z
  end.



(** * Properties *)

(** ** The progress store *)

Lemma load_history_eq (w : world) :
  load_history w =
  match db w with
  | Absent => (Ret [], w)
  | ReadFails e => if is_JSONDecodeError e then (Ret [], w) else (Raise e, w)
  | Stored h => (Ret h, w)
  end.
Proof.
  unfold load_history, try_except_if, try_except, os_path_exists, json_load_file.
  unfold mbind, M_bind, bind, ret, raise. cbv beta iota.
  destruct (db w) as [|e|h] eqn:Hdb; cbv beta iota; rewrite ?Hdb; try reflexivity.
  destruct (is_JSONDecodeError e); reflexivity.
Qed.

Lemma load_history_readable (w : world) :
  readable (db w) = true -> load_history w = (Ret (records (db w)), w).
Proof.
  intros Hr. rewrite load_history_eq.
  destruct (db w) as [|e|h]; simpl in *; try reflexivity.
  rewrite Hr. reflexivity.
Qed.

Lemma update_entry_status_readable (store_id : string) (updates : gmap string value)
  (w : world) :
  readable (db w) = true ->
  update_entry_status store_id updates w =
  (Ret tt, with_write (update_first store_id updates (records (db w))) w).
Proof.
  intros Hr. unfold update_entry_status, mbind, M_bind, bind.
  rewrite (load_history_readable w Hr). reflexivity.
Qed.

Lemma save_history_readable (e : gmap string value) (w : world) :
  readable (db w) = true ->
  save_history e w = (Ret tt, with_write (records (db w) ++ [e]) w).
Proof.
  intros Hr. unfold save_history, mbind, M_bind, bind.
  rewrite (load_history_readable w Hr). reflexivity.
Qed.

Lemma update_first_absent (store_id : string) (updates : gmap string value)
  (h : list (gmap string value)) :
  find_entry store_id h = None -> update_first store_id updates h = h.
Proof.
  induction h as [|e h IH]; simpl; [reflexivity|].
  destruct (has_store_id store_id e); [discriminate|].
  intros Hf. rewrite (IH Hf). reflexivity.
Qed.

(** C7 (as stated, refuted): a database file that cannot be opened makes
    [load_history] raise instead of returning the empty list. *)
Lemma load_history_unreadable_raises :
  let w := world0 (ReadFails (Exc PermissionError "Permission denied")) in
  readable (db w) = false /\
  fst (load_history w) = Raise (Exc PermissionError "Permission denied") /\
  fst (get_entry_by_store_id "abc12345" w) = Raise (Exc PermissionError "Permission denied").
Proof. repeat split. Qed.

(** C7 (amended): when the database file is missing or its content is not
    valid JSON ([json.JSONDecodeError]), [load_history] and the lookup built
    on it return the empty store without raising and leave the world as it
    is; any other failure to read the file is raised to the caller. *)
Theorem load_history_degrades (w : world) (store_id : string) :
  (db w = Absent \/ exists e, db w = ReadFails e /\ is_JSONDecodeError e = true) ->
  load_history w = (Ret [], w) /\
  get_entry_by_store_id store_id w = (Ret None, w).
Proof.
  intros Hdb.
  assert (Hl : load_history w = (Ret [], w)).
  { rewrite load_history_eq. destruct Hdb as [-> | (e & -> & He)]; [reflexivity|].
    rewrite He. reflexivity. }
  split; [exact Hl|].
  unfold get_entry_by_store_id, mbind, M_bind, bind. rewrite Hl. reflexivity.
Qed.

Lemma load_history_degrades_witness :
  load_history (world0 (ReadFails (Exc JSONDecodeError "Expecting value"))) =
    (Ret [], world0 (ReadFails (Exc JSONDecodeError "Expecting value"))) /\
  get_entry_by_store_id "abc12345" (world0 (ReadFails (Exc JSONDecodeError "Expecting value"))) =
    (Ret None, world0 (ReadFails (Exc JSONDecodeError "Expecting value"))).
Proof.
  apply (load_history_degrades
           (world0 (ReadFails (Exc JSONDecodeError "Expecting value"))) "abc12345").
  right. exists (Exc JSONDecodeError "Expecting value"). split; reflexivity.
Defined.

(** C6: an update for a job id that no stored record carries returns
    without raising, and a reader finds the same records after it as
    before. *)
Theorem update_unknown_id_is_noop (store_id : string) (updates : gmap string value)
  (w : world) (h : list (gmap string value)) :
  fst (load_history w) = Ret h ->
  find_entry store_id h = None ->
  fst (update_entry_status store_id updates w) = Ret tt /\
  fst (load_history (snd (update_entry_status store_id updates w))) = Ret h.
Proof.
  intros Hl Hf.
  assert (Hr : readable (db w) = true /\ records (db w) = h).
  { rewrite load_history_eq in Hl.
    destruct (db w) as [|e|h']; simpl in *.
    - inversion Hl; subst; split; reflexivity.
    - destruct (is_JSONDecodeError e); simpl in Hl; [|discriminate].
      inversion Hl; subst; split; reflexivity.
    - inversion Hl; subst; split; reflexivity. }
  destruct Hr as [Hr Hrec].
  rewrite (update_entry_status_readable _ _ _ Hr), Hrec.
  rewrite (update_first_absent _ _ _ Hf). split; reflexivity.
Qed.

Lemma update_unknown_id_is_noop_witness :
  fst (update_entry_status "ffff0000" upd_token_done
         (world0 (Stored [initial_entry "abc12345" 0 "2025-01-01 10:00:00" ∅]))) = Ret tt /\
  fst (load_history
         (snd (update_entry_status "ffff0000" upd_token_done
                 (world0 (Stored [initial_entry "abc12345" 0 "2025-01-01 10:00:00" ∅]))))) =
    Ret [initial_entry "abc12345" 0 "2025-01-01 10:00:00" ∅].
Proof.
  apply (update_unknown_id_is_noop "ffff0000" upd_token_done
           (world0 (Stored [initial_entry "abc12345" 0 "2025-01-01 10:00:00" ∅]))
           [initial_entry "abc12345" 0 "2025-01-01 10:00:00" ∅]).
  - reflexivity.
  - vm_compute. reflexivity.
Defined.

(** ** Job identifiers *)

(** C5 (evaluation at the failing input): two submissions whose random
    draws differ, and whose UUIDs differ, get the same 8-character job id;
    both are accepted, both tasks are queued, and the store then holds two
    records under one id, of which a status query only finds the first. *)
Theorem generate_store_id_collides :
  let r1 := 0x1a2b3c4d000000000000000000000001%Z in
  let r2 := 0x1a2b3c4dffffffffffffffffffffffff%Z in
  let body1 := VDict (list_to_map [("client_name", VStr "Ann"); ("store_name", VStr "Foo");
                                   ("email", VStr "a@b.com"); ("business_type", VStr "shop")]) in
  let body2 := VDict (list_to_map [("client_name", VStr "Bob"); ("store_name", VStr "Bar");
                                   ("email", VStr "c@d.org"); ("business_type", VStr "shop")]) in
  let run1 := api_create_store body1 r1 "2025-01-01 10:00:00" (world0 (Stored [])) in
  let run2 := api_create_store body2 r2 "2025-01-01 10:00:05" (snd run1) in
  uuid_str (uuid4 r1) = "1a2b3c4d-0000-4000-8000-000000000001" /\
  uuid_str (uuid4 r2) = "1a2b3c4d-ffff-4fff-bfff-ffffffffffff" /\
  generate_store_id r1 = "1a2b3c4d" /\
  generate_store_id r2 = "1a2b3c4d" /\
  (code <$> returned (fst run1)) = Some 202%Z /\
  (code <$> returned (fst run2)) = Some 202%Z /\
  (returned (fst run1) ≫= λ resp, body resp !! "store_id") = Some (VStr "1a2b3c4d") /\
  (returned (fst run2) ≫= λ resp, body resp !! "store_id") = Some (VStr "1a2b3c4d") /\
  fst <$> submitted (trace (snd run2)) = ["1a2b3c4d"; "1a2b3c4d"] /\
  length (List.filter (has_store_id "1a2b3c4d") (records (db (snd run2)))) = 2 /\
  job_field "1a2b3c4d" "id" (records (db (snd run2))) = Some (VInt 1).
Proof. vm_compute. repeat split; reflexivity. Qed.

(** ** The submission endpoint *)

Lemma check_required_ok (d : gmap string value) (fields : list string) (w : world) :
  forallb (field_ok d) fields = true ->
  check_required (VDict d) fields w = (Ret None, w).
Proof.
  induction fields as [|f fields IH]; simpl; [reflexivity|].
  intros [Hf Hrest]%andb_prop.
  unfold field_ok in Hf. unfold mbind, M_bind, bind, value_get, dict_get_default, ret.
  destruct (d !! f) as [[| | |s| |]|]; try discriminate. simpl.
  destruct (String.eqb (strip s) ""); [discriminate|].
  apply IH, Hrest.
Qed.

Lemma ne_5_forced (v : value) : (if ne_5 v then VInt 5 else v) = VInt 5.
Proof. destruct v as [| |z| | |]; try reflexivity. destruct z as [|p|p]; try reflexivity.
  do 3 (destruct p as [p|p|]; try reflexivity). Qed.

Lemma field_ok_lookup (d : gmap string value) (f : string) :
  field_ok d f = true -> exists s, d !! f = Some (VStr s) /\ body_str d f = strip s.
Proof.
  unfold field_ok, body_str. destruct (d !! f) as [[| | |s| |]|]; try discriminate.
  intros _. exists s. split; reflexivity.
Qed.

Lemma dict_truthy_lookup (d : gmap string value) (k : string) (v : value) :
  d !! k = Some v -> truthy (VDict d) = true.
Proof.
  intros Hk. simpl. destruct (size d) eqn:Hs; [|reflexivity].
  apply map_size_empty_iff in Hs. subst d. rewrite lookup_empty in Hk. discriminate.
Qed.

(** C8: for every body that passes validation, with or without a
    [product_count] and whatever its value, the task queued and the record
    stored carry [product_count = 5], and the response is the job id with
    status [processing] and HTTP code 202. *)
Theorem api_create_store_accepts (d : gmap string value) (r : Z) (now : string) (w : world) :
  valid_submission d = true ->
  readable (db w) = true ->
  let store_id := generate_store_id r in
  let user_data := submitted_user_data d in
  let h' := records (db w) ++ [initial_entry store_id (length (records (db w))) now user_data] in
  user_data !! "product_count" = Some (VInt 5) /\
  api_create_store (VDict d) r now w =
    (Ret (accepted store_id),
     {| db := Stored h';
        events := EvSubmit (store_id, user_data) :: EvWrite h' :: events w;
        browser_session := browser_session w;
        automation_log := automation_log w |}) /\
  code (accepted store_id) = 202%Z /\
  body (accepted store_id) !! "status" = Some (VStr "processing") /\
  body (accepted store_id) !! "store_id" = Some (VStr store_id).
Proof.
  intros Hv Hr store_id user_data h'.
  split; [reflexivity|]. split; [|repeat split; reflexivity].
  unfold valid_submission in Hv.
  apply andb_prop in Hv as [Hv Hdot]. apply andb_prop in Hv as [Hreq Hat].
  pose proof Hreq as Hreq'. simpl in Hreq'.
  apply andb_prop in Hreq' as [Hc Hreq']. apply andb_prop in Hreq' as [Hs Hreq'].
  apply andb_prop in Hreq' as [He Hreq']. apply andb_prop in Hreq' as [Hb _].
  destruct (field_ok_lookup _ _ Hc) as (sc & Hlc & Hbc).
  destruct (field_ok_lookup _ _ Hs) as (ss & Hls & Hbs).
  destruct (field_ok_lookup _ _ He) as (se & Hle & Hbe).
  destruct (field_ok_lookup _ _ Hb) as (sb & Hlb & Hbb).
  unfold api_create_store, try_except.
  rewrite (dict_truthy_lookup _ _ _ Hle). cbn [negb].
  unfold mbind at 1, M_bind at 1, bind at 1.
  rewrite (check_required_ok d required_fields w Hreq).
  unfold mbind, M_bind, bind, value_item, value_get, value_strip, ret.
  rewrite Hle, Hlc, Hls, Hlb. cbv beta iota.
  unfold body_email in Hat, Hdot. rewrite Hle in Hat, Hdot. rewrite Hat, Hdot. cbn [negb orb].
  rewrite ne_5_forced.
  rewrite (load_history_readable w Hr).
  rewrite (save_history_readable _ w Hr).
  unfold executor_submit, emit, with_write, accepted. cbn [db events browser_session automation_log].
  subst h' user_data store_id. unfold submitted_user_data.
  rewrite Hbc, Hbs, Hbe, Hbb. reflexivity.
Qed.

Lemma api_create_store_accepts_witness :
  let d : gmap string value :=
    list_to_map [("client_name", VStr "Ann"); ("store_name", VStr " Foo ");
                 ("email", VStr "a@b.com"); ("business_type", VStr "shop");
                 ("product_count", VInt 12)] in
  code <$> returned (fst (api_create_store (VDict d) 7 "2025-01-01 10:00:00" (world0 Absent)))
    = Some 202%Z.
Proof.
  intros d.
  destruct (api_create_store_accepts d 7 "2025-01-01 10:00:00" (world0 Absent))
    as (_ & Hrun & Hcode & _).
  - vm_compute. reflexivity.
  - reflexivity.
  - rewrite Hrun. reflexivity.
Defined.

(** ** The catalog importer *)

Lemma length_insert_by_score (x : scored) (l : list scored) :
  length (insert_by_score x l) = S (length l).
Proof.
  induction l as [|y l IH]; simpl; [reflexivity|].
  destruct (Qle_bool (sc_score y) (sc_score x)); simpl; [reflexivity|].
  rewrite IH. reflexivity.
Qed.

Lemma length_sort_by_score (l : list scored) : length (sort_by_score l) = length l.
Proof.
  induction l as [|x l IH]; simpl; [reflexivity|].
  rewrite length_insert_by_score, IH. reflexivity.
Qed.

Lemma length_score_products (env : importer_env) (kw : option keywords) (idx : nat)
  (l : list (gmap string value)) :
  length (score_products env kw idx l) ≤ length l.
Proof.
  revert idx. induction l as [|p l IH]; intros idx; simpl; [lia|].
  destruct (negb (truthy (product_title p)) || negb (price_truthy (extract_price env p))
            || negb (nonempty (extract_images env p true))); simpl.
  - specialize (IH (S idx)). lia.
  - specialize (IH (S idx)). lia.
Qed.

Lemma length_slice_to {A} (k : Z) (l : list A) :
  (0 <= k)%Z -> length (slice_to k l) ≤ Z.to_nat k /\ length (slice_to k l) ≤ length l.
Proof.
  intros Hk. unfold slice_to.
  destruct (k <? 0)%Z eqn:Hlt; [apply Z.ltb_lt in Hlt; lia|].
  rewrite length_take. lia.
Qed.

Lemma length_omap_le {A B} (f : A -> option B) (l : list A) :
  length (omap f l) ≤ length l.
Proof.
  induction l as [|x l IH]; csimpl; [lia|].
  destruct (f x); csimpl; lia.
Qed.

Lemma length_filter_loop (kw : keywords) (strict_mode : bool)
  (l filtered : list (gmap string value)) :
  filter_loop kw strict_mode l = Ret filtered -> length filtered ≤ length l.
Proof.
  revert filtered. induction l as [|p l IH]; intros filtered; simpl.
  - intros [= <-]. simpl. lia.
  - unfold mbind, result_bind.
    destruct (keep_product kw strict_mode p) as [keep|]; [|discriminate].
    destruct (filter_loop kw strict_mode l) as [f|]; [|discriminate].
    intros [= <-]. specialize (IH f eq_refl). destruct keep; simpl; lia.
Qed.

(** The selection never returns more than [max_products] items, nor more
    than it was given. *)
Lemma select_best_products_length (env : importer_env) (max_products : Z)
  (l : list (gmap string value)) (kw : option keywords) (sel : list (gmap string value)) :
  (0 <= max_products)%Z ->
  _select_best_products env max_products l kw = Ret sel ->
  length sel ≤ Z.to_nat max_products /\ length sel ≤ length l.
Proof.
  intros Hmax. unfold _select_best_products.
  assert (Hsel : forall l' : list (gmap string value), length l' ≤ length l ->
            let sel' := omap (_parse_product env)
                          (slice_to max_products (sort_by_score (score_products env kw 0 l'))) in
            length sel' ≤ Z.to_nat max_products /\ length sel' ≤ length l).
  { intros l' Hl' sel'.
    pose proof (length_omap_le (_parse_product env)
                  (slice_to max_products (sort_by_score (score_products env kw 0 l')))) as H1.
    pose proof (length_slice_to max_products
                  (sort_by_score (score_products env kw 0 l')) Hmax) as [H2 H3].
    rewrite length_sort_by_score in H3.
    pose proof (length_score_products env kw 0 l') as H4.
    subst sel'. lia. }
  destruct kw as [k|]; simpl.
  - unfold _filter_by_keywords.
    destruct (negb (nonempty (positive k)) && negb (nonempty (required k))
              && negb (nonempty (negative k))
              && negb (opt_str_truthy (expected_product_type k))).
    + simpl.
      destruct (Z.of_nat (length l) >=? max_products)%Z; simpl.
      * intros [= <-]. apply Hsel. lia.
      * destruct (0 <? Z.of_nat (length l))%Z; simpl.
        -- intros [= <-]. apply Hsel. lia.
        -- intros [= <-]. simpl. lia.
    + destruct (filter_loop k true l) as [f|] eqn:Hf; simpl; [|discriminate].
      pose proof (length_filter_loop _ _ _ _ Hf) as Hlen.
      destruct (Z.of_nat (length f) >=? max_products)%Z; simpl.
      * intros [= <-]. apply Hsel. exact Hlen.
      * destruct (0 <? Z.of_nat (length f))%Z; simpl.
        -- intros [= <-]. apply Hsel. exact Hlen.
        -- intros [= <-]. simpl. lia.
  - intros [= <-]. apply Hsel. lia.
Qed.

Lemma fallback_length (env : importer_env) (max_products : Z) (kw : keywords) :
  (0 <= max_products)%Z ->
  length (_fallback_load_all_products env max_products kw) ≤ Z.to_nat max_products.
Proof.
  intros Hmax. unfold _fallback_load_all_products.
  destruct (api_all_products env) as [e|status all_products]; simpl; [lia|].
  destruct (negb (status =? 200)%Z); simpl; [lia|].
  destruct (negb (truthy all_products)); simpl; [lia|].
  destruct (as_products all_products) as [ps|]; simpl; [|lia].
  destruct (_filter_by_keywords ps kw true) as [f|]; simpl; [|lia].
  destruct (nonempty f);
    match goal with |- context [_select_best_products env max_products ?l ?k] =>
      destruct (_select_best_products env max_products l k) as [sel|] eqn:Hs end;
    simpl; try lia; apply (select_best_products_length _ _ _ _ _ Hmax Hs).
Qed.

Lemma load_ebay_products_length (env : importer_env) (max_products : Z) (category : value) :
  (0 <= max_products)%Z ->
  length (load_ebay_products env max_products category) ≤ Z.to_nat max_products.
Proof.
  intros Hmax. destruct category as [| | |s| |]; simpl; try lia.
  unfold load_ebay_products_str.
  set (kw := {| positive := _; required := _; negative := _; expected_product_type := _ |}).
  destruct (api_products env _) as [e|status all_products]; simpl; [lia|].
  destruct (negb (status =? 200)%Z); simpl; [apply fallback_length, Hmax|].
  destruct (negb (truthy all_products)); simpl; [apply fallback_length, Hmax|].
  destruct (as_products all_products) as [ps|]; simpl; [|lia].
  match goal with |- context [_select_best_products env max_products ?l ?k] =>
    destruct (_select_best_products env max_products l k) as [sel|] eqn:Hs end; simpl; [|lia].
  apply (select_best_products_length _ _ _ _ _ Hmax Hs).
Qed.

Lemma length_upload_loop (env : importer_env) (i : nat) (l : list (gmap string value)) :
  length (upload_loop env i l) ≤ length l.
Proof.
  revert i. induction l as [|p l IH]; intros i; simpl; [lia|].
  destruct (upload_to_shopify env (ensure_images env p) i); simpl; specialize (IH (S i)); lia.
Qed.

(** With a string for the store and an integer count, the import returns a
    list, of at most [min(max(count, 5), 30)] products. *)
Lemma import_products_returns (env : importer_env) (access_token url : string)
  (category : value) (n : Z) :
  exists l, import_products env access_token (VStr url) category (VInt n) = Ret l /\
            length l ≤ Z.to_nat (Z.min (Z.max n 5) 30).
Proof.
  unfold import_products. simpl. unfold ebay_import_products.
  assert (Hmax : (0 <= Z.min (Z.max n 5) 30)%Z) by lia.
  pose proof (load_ebay_products_length env _ category Hmax) as Hl.
  destruct (negb (nonempty (load_ebay_products env (Z.min (Z.max n 5) 30) category))); simpl.
  - exists []. split; [reflexivity|]. simpl. lia.
  - eexists. split; [reflexivity|].
    pose proof (length_upload_loop env 1 (load_ebay_products env (Z.min (Z.max n 5) 30) category)).
    lia.
Qed.

(** C10: whatever count [n] the import stage is called with, the importer
    works with [min(max(n, 5), 30)]: the call gives what a call with that
    number gives and returns at most that many products; a count below 5
    is raised to 5 and a count above 30 is cut to 30.  With six matching
    items in the catalog, a request for 1 item through the form (which
    accepts 1 to 50) imports 5. *)
Theorem import_count_is_clamped (env : importer_env) (access_token url : string)
  (category : value) (n : Z) :
  let target := Z.min (Z.max n 5) 30 in
  init_max_products (VInt n) = Ret target /\
  import_products env access_token (VStr url) category (VInt n) =
    import_products env access_token (VStr url) category (VInt target) /\
  (exists l, import_products env access_token (VStr url) category (VInt n) = Ret l /\
             length l ≤ Z.to_nat target) /\
  ((n < 5)%Z -> target = 5%Z) /\
  ((30 < n)%Z -> target = 30%Z) /\
  ((5 <= n <= 30)%Z -> target = n) /\
  (length <$> returned (import_products (example_env six_matching) "shpat_0123456789abcdef"
                          (VStr "https://foo.myshopify.com") (VStr "tablet") (VInt 1)))
    = Some 5 /\
  (match fst (create_store (example_services (example_env six_matching) (λ _, false))
                (example_form "1") (world0 (Stored []))) with
   | Ret (SuccessPage _ _ products_count _ _) => Some products_count
   | _ => None
   end) = Some 5.
Proof.
  intros target. split; [reflexivity|]. split.
  - unfold import_products. simpl.
    replace (Z.min (Z.max target 5) 30) with (Z.min (Z.max n 5) 30) by (subst target; lia).
    reflexivity.
  - split; [apply import_products_returns|].
    split; [subst target; lia|]. split; [subst target; lia|]. split; [subst target; lia|].
    split; vm_compute; reflexivity.
Qed.

(** ** Running the orchestrators *)

Lemma lookup_list_to_map_assoc (l : list (string * value)) (k : string) :
  (list_to_map l : gmap string value) !! k = assoc k l.
Proof.
  induction l as [|[k' v] l IH]; simpl.
  - apply lookup_empty.
  - destruct (String.eqb_spec k' k) as [->|Hne].
    + apply lookup_insert_eq.
    + rewrite lookup_insert_ne by done. exact IH.
Qed.

Lemma lookup_update (upd e : gmap string value) (k : string) :
  (upd ∪ e) !! k = match upd !! k with Some v => Some v | None => e !! k end.
Proof.
  rewrite lookup_union. destruct (upd !! k), (e !! k); reflexivity.
Qed.

Lemma has_store_id_update (sid : string) (upd e : gmap string value) :
  upd !! "store_id" = None -> has_store_id sid (upd ∪ e) = has_store_id sid e.
Proof. intros Hu. unfold has_store_id. rewrite lookup_update, Hu. reflexivity. Qed.

Lemma find_entry_update_first (sid : string) (upd : gmap string value)
  (h : list (gmap string value)) (e : gmap string value) :
  upd !! "store_id" = None ->
  find_entry sid h = Some e ->
  find_entry sid (update_first sid upd h) = Some (upd ∪ e).
Proof.
  intros Hu. induction h as [|e' h IH]; simpl; [discriminate|].
  destruct (has_store_id sid e') eqn:Hid.
  - intros [= ->]. simpl. rewrite (has_store_id_update _ _ _ Hu), Hid. reflexivity.
  - intros Hf. simpl. rewrite Hid. apply IH, Hf.
Qed.

Lemma dict_item_some (d : gmap string value) (k : string) (v : value) (w : world) :
  d !! k = Some v -> dict_item d k w = (Ret v, w).
Proof. intros H. unfold dict_item. rewrite H. reflexivity. Qed.

Lemma check_store_data_cases (sd : value) (w : world) :
  (exists d v, sd = VDict d /\ d !! "store_url" = Some v /\ truthy v = true /\
               check_store_data sd w = (Ret d, w)) \/
  (exists e, check_store_data sd w = (Raise e, w)).
Proof.
  unfold check_store_data.
  destruct (truthy sd) eqn:Ht; simpl; [|right; eexists; reflexivity].
  destruct sd as [| | | | |d]; try (right; eexists; reflexivity).
  unfold dict_get. destruct (d !! "store_url") as [v|] eqn:Hv; simpl.
  - destruct (truthy v) eqn:Htv; simpl; [|right; eexists; reflexivity].
    left. exists d, v. repeat split; assumption.
  - right; eexists; reflexivity.
Qed.

Lemma check_store_data_ok (sd : gmap string value) (v : value) (w : world) :
  sd !! "store_url" = Some v -> truthy v = true ->
  check_store_data (VDict sd) w = (Ret sd, w).
Proof.
  intros Hurl Hv. unfold check_store_data.
  rewrite (dict_truthy_lookup _ _ _ Hurl). unfold dict_get. rewrite Hurl. simpl.
  rewrite Hv. reflexivity.
Qed.

Lemma check_access_token_ok (t : string) (w : world) :
  t <> "" -> check_access_token (Some t) w = (Ret t, w).
Proof.
  intros Ht. unfold check_access_token.
  destruct (String.eqb_spec t ""); [contradiction|reflexivity].
Qed.

Lemma check_access_token_cases (token : option string) (w : world) :
  (exists t, token = Some t /\ String.eqb t "" = false /\
             check_access_token token w = (Ret t, w)) \/
  (exists e, check_access_token token w = (Raise e, w)).
Proof.
  destruct token as [t|]; [|right; eexists; reflexivity].
  destruct (String.eqb t "") eqn:Ht.
  - right. unfold check_access_token. rewrite Ht. eexists; reflexivity.
  - left. exists t. split; [reflexivity|]. split; [exact Ht|].
    unfold check_access_token. rewrite Ht. reflexivity.
Qed.

Lemma ud_lookup (d : gmap string value) :
  submitted_user_data d !! "email" = Some (VStr (body_str d "email")) /\
  submitted_user_data d !! "store_name" = Some (VStr (body_str d "store_name")) /\
  submitted_user_data d !! "business_type" = Some (VStr (body_str d "business_type")) /\
  submitted_user_data d !! "product_count" = Some (VInt 5).
Proof. unfold submitted_user_data. rewrite !lookup_list_to_map_assoc. repeat split. Qed.

(** Unfold the monad and reduce what the world makes concrete. *)
Ltac msimp :=
  cbv beta iota zeta delta [mbind M_bind bind try_except ret raise mret M_ret
    set_browser_session get_browser_session set_automation_log get_automation_log
    call emit lift_result now_str
    close_after_token close_on_error session_quit world0 with_write];
  cbn [db events browser_session automation_log records readable fst snd is_Ret
       count_quits List.filter is_quit length].

(** One step of the background orchestrator: a store update, a read of
    [user_data], or a case split on what a stage operation answers. *)
Ltac bg_step :=
  first
    [ rewrite update_entry_status_readable by (first [reflexivity | assumption])
    | match goal with
      | H : ?d !! ?k = Some ?v |- context [dict_item ?d ?k ?w] =>
          rewrite (dict_item_some d k v w H)
      | H : forall a b c e, create_store_op ?sv a b c e = _ |- context [create_store_op ?sv _ _ _ _] =>
          rewrite H
      | H : forall a b, get_token_op ?sv a b = _ |- context [get_token_op ?sv _ _] =>
          rewrite H
      | H : forall a b c, transfer_op ?sv a b c = _ |- context [transfer_op ?sv _ _ _] =>
          rewrite H
      | H : import_products_op ?sv ?a ?b ?c ?e = _ |- context [import_products_op ?sv ?a ?b ?c ?e] =>
          rewrite H
      | H : forall n, quit_op ?sv ?hd n = _ |- context [quit_op ?sv ?hd _] =>
          rewrite H
      | H : forall w, check_store_data ?sd w = _ |- context [check_store_data ?sd _] =>
          rewrite H
      | H : forall w, check_access_token ?t w = _ |- context [check_access_token ?t _] =>
          rewrite H
      | |- context [check_store_data ?sd ?w] =>
          destruct (check_store_data_cases sd w) as [(? & ? & -> & ? & ? & ->)|(? & ->)]
      | |- context [check_access_token ?t ?w] =>
          destruct (check_access_token_cases t w) as [(? & -> & ? & ->)|(? & ->)]
      | |- context [match create_store_op ?a ?b ?c ?d ?e with _ => _ end] =>
          destruct (create_store_op a b c d e) as [[? ?]|?] eqn:?
      | |- context [match get_token_op ?a ?b ?c with _ => _ end] =>
          destruct (get_token_op a b c) as [?|?] eqn:?
      | |- context [match import_products_op ?a ?b ?c ?d ?e with _ => _ end] =>
          destruct (import_products_op a b c d e) as [?|?] eqn:?
      | |- context [match transfer_op ?a ?b ?c ?d with _ => _ end] =>
          destruct (transfer_op a b c d) as [?|?] eqn:?
      | |- context [quit_op ?a ?b ?c] =>
          destruct (quit_op a b c) as [[]|?] eqn:?
      | |- context [match ?s with Some _ => _ | None => _ end] =>
          is_var s; destruct s
      end ];
  msimp.

Ltac use_ud d :=
  destruct (ud_lookup d) as (Hud_email & Hud_store & Hud_bt & Hud_count).

Ltac bg_exec d :=
  unfold run_automation_background; use_ud d; msimp; repeat bg_step.

Lemma find_entry_update_first_fmap (sid : string) (upd : gmap string value)
  (h : list (gmap string value)) :
  upd !! "store_id" = None ->
  find_entry sid (update_first sid upd h) = (fun e => upd ∪ e) <$> find_entry sid h.
Proof.
  intros Hu. destruct (find_entry sid h) as [e|] eqn:Hf.
  - apply (find_entry_update_first _ _ _ _ Hu Hf).
  - rewrite (update_first_absent _ _ _ Hf). exact Hf.
Qed.

(** Read a key in a dict literal. *)
Ltac eval_lookups :=
  unfold upd_create_account, upd_store_created, upd_access_token, upd_token_done,
    upd_import_products, upd_imported, upd_transfer_ownership, upd_completed, upd_failed,
    initial_entry in *;
  rewrite ?lookup_update, ?lookup_list_to_map_assoc;
  cbn [assoc String.eqb Ascii.eqb Bool.eqb andb].

(** The record of the job in a snapshot produced by successive updates. *)
Ltac find_job H :=
  rewrite ?find_entry_update_first_fmap
    by (unfold upd_create_account, upd_store_created, upd_access_token, upd_token_done,
          upd_import_products, upd_imported, upd_transfer_ownership, upd_completed,
          upd_failed;
        rewrite lookup_list_to_map_assoc; reflexivity);
  rewrite ?H;
  cbn [fmap option_fmap option_map mbind option_bind].

(** Read a field of the job in a snapshot. *)
Ltac job_read H :=
  unfold job_status, job_percent, job_field, dict_get_default; find_job H; eval_lookups.

(** ** The background orchestrator *)

(** C4: when stages 1, 2 and 4 succeed and the import is the catalog
    importer, the import returns a list of at most five products, however
    few catalog items match (none included), and the job ends with status
    [completed], 100 percent, and [products_imported] equal to the number
    of products the import returned. *)
Theorem shortfall_completes (sv : services) (env : importer_env) (d : gmap string value)
  (sid ts : string) (n : nat) (h0 : list (gmap string value))
  (sd : gmap string value) (hd : handle) (url token : string) (tr : value) :
  find_entry sid h0 = Some (initial_entry sid n ts (submitted_user_data d)) ->
  (forall a b c e, create_store_op sv a b c e = Ret (VDict sd, Some hd)) ->
  sd !! "store_url" = Some (VStr url) ->
  url <> "" ->
  (forall a b, get_token_op sv a b = Ret (Some token)) ->
  token <> "" ->
  import_products_op sv = import_products env ->
  (forall a b c, transfer_op sv a b c = Ret tr) ->
  let run := run_automation_background sv sid (submitted_user_data d) (world0 (Stored h0)) in
  exists l,
    import_products env token (VStr url)
      (dict_get_default (submitted_user_data d) "product_category" (VStr "electronics"))
      (VInt 5) = Ret l /\
    length l ≤ 5 /\
    fst run = Ret tt /\
    job_status sid (records (db (snd run))) = Some (VStr "completed") /\
    job_percent sid (records (db (snd run))) = Some 100%Z /\
    job_field sid "products_imported" (records (db (snd run))) = Some (VInt (Z.of_nat (length l))).
Proof.
  intros Hfind Hcreate Hurl Hne Htoken Htne Himport Htransfer run.
  destruct (import_products_returns env token url
              (dict_get_default (submitted_user_data d) "product_category" (VStr "electronics")) 5)
    as (l & Hl & Hlen).
  exists l. split; [exact Hl|]. split; [exact Hlen|].
  assert (Himp : import_products_op sv token (VStr url)
                   (dict_get_default (submitted_user_data d) "product_category" (VStr "electronics"))
                   (VInt 5) = Ret l) by (rewrite Himport; exact Hl).
  assert (Hcsd : forall w, check_store_data (VDict sd) w = (Ret sd, w)).
  { intros w. apply (check_store_data_ok sd (VStr url) w Hurl).
    simpl. destruct (String.eqb_spec url ""); [contradiction|reflexivity]. }
  assert (Htok : forall w, check_access_token (Some token) w = (Ret token, w)).
  { intros w. apply check_access_token_ok, Htne. }
  subst run. bg_exec d.
  all: (split; [reflexivity|]).
  all: job_read Hfind; repeat split; reflexivity.
Qed.


(** C4, at the example: five items requested, two matching items in the
    catalog; the job completes and records two imported items. *)
Lemma shortfall_completes_witness :
  let sv := example_services (example_env two_matching) (fun _ => false) in
  let h0 := [initial_entry "abc12345" 0 "2025-01-01 10:00:00" (submitted_user_data example_body)] in
  let run := run_automation_background sv "abc12345" (submitted_user_data example_body)
               (world0 (Stored h0)) in
  job_status "abc12345" (records (db (snd run))) = Some (VStr "completed") /\
  job_field "abc12345" "products_imported" (records (db (snd run))) = Some (VInt 2).
Proof.
  intros sv h0 run.
  destruct (shortfall_completes sv (example_env two_matching) example_body
              "abc12345" "2025-01-01 10:00:00" 0 h0 example_store_data 1
              "https://foo.myshopify.com" "shpat_0123456789abcdef"
              (VDict {[ "status" := VStr "invited" ]}))
    as (l & Hl & _ & _ & Hstatus & _ & Hcount).
  - reflexivity.
  - intros; reflexivity.
  - reflexivity.
  - discriminate.
  - intros; reflexivity.
  - discriminate.
  - reflexivity.
  - intros; reflexivity.
  - split; [exact Hstatus|].
    assert (Hlen : length <$> returned
                     (import_products (example_env two_matching) "shpat_0123456789abcdef"
                        (VStr "https://foo.myshopify.com")
                        (dict_get_default (submitted_user_data example_body)
                           "product_category" (VStr "electronics"))
                        (VInt 5)) = Some 2) by (vm_compute; reflexivity).
    rewrite Hl in Hlen. injection Hlen as Hlen.
    etrans; [exact Hcount|]. rewrite Hlen. reflexivity.
Defined.


(** C1 (as stated, refuted): stage 1 and stage 2 succeed, the [quit] issued
    after stage 2 raises, and the catalog import fails: [quit] is invoked
    twice on the handle, and the handle is never closed. *)
Lemma quit_invoked_twice :
  let sv := failing_import_services (fun _ => true) in
  let h0 := [initial_entry "abc12345" 0 "2025-01-01 10:00:00" (submitted_user_data example_body)] in
  let w' := snd (run_automation_background sv "abc12345" (submitted_user_data example_body)
                   (world0 (Stored h0))) in
  List.filter (fun ev => match ev with EvWrite _ => false | _ => true end) (trace w') =
    [EvCall StCreateStore; EvCall StGetToken; EvQuit 1 false;
     EvCall StImportProducts; EvQuit 1 false] /\
  count_quits (trace w') = 2 /\
  count_closed (trace w') = 0 /\
  job_status "abc12345" (records (db w')) = Some (VStr "failed").
Proof. vm_compute. repeat split; reflexivity. Qed.


(** C1 (amended): when stage 1 returns a session handle, the background
    orchestrator invokes [quit] on that handle and on no other, before any
    call of stage 3 or 4, at least once and at most twice, and at most one
    of these calls returns; [quit] is invoked exactly once when its first
    call returns, and exactly once when stage 2 fails. *)
Theorem session_quit_discipline (sv : services) (d : gmap string value) (sid : string)
  (f : db_file) (sd : value) (hd : handle) :
  readable f = true ->
  (forall a b c e, create_store_op sv a b c e = Ret (sd, Some hd)) ->
  let tr := trace (snd (run_automation_background sv sid (submitted_user_data d) (world0 f))) in
  quits_on hd tr = true /\
  quit_before_stage3 tr = true /\
  1 ≤ count_quits tr ≤ 2 /\
  count_closed tr ≤ 1 /\
  (is_Ret (quit_op sv hd 0) = true -> count_quits tr = 1) /\
  ((forall a b, token_fails (get_token_op sv a b) = true) -> count_quits tr = 1).
Proof.
  intros Hr Hcreate tr. subst tr. bg_exec d.
  all: unfold trace; cbn [events rev app].
  all: repeat match goal with H : quit_op _ _ _ = _ |- _ => rewrite ?H; clear H end.
  all: cbn [quits_on forallb Nat.eqb andb quit_before_stage3 count_quits count_closed
            List.filter is_quit length is_Ret].
  all: rewrite ?Nat.eqb_refl; cbn [andb].
  all: repeat split; try reflexivity; try lia; try (intros HH; discriminate HH).
  all: intros HH;
    match goal with
    | Ht : get_token_op _ ?a ?b = Ret (Some ?t), He : String.eqb ?t "" = false |- _ =>
        specialize (HH a b); rewrite Ht in HH; simpl in HH; rewrite He in HH; discriminate HH
    end.
Qed.


Lemma session_quit_discipline_witness :
  let sv := failing_import_services (fun _ => false) in
  let tr := trace (snd (run_automation_background sv "abc12345"
                          (submitted_user_data example_body) (world0 (Stored [])))) in
  quits_on 1 tr = true /\
  quit_before_stage3 tr = true /\
  1 ≤ count_quits tr ≤ 2 /\
  count_closed tr ≤ 1 /\
  (is_Ret (quit_op sv 1 0) = true -> count_quits tr = 1) /\
  ((forall a b, token_fails (get_token_op sv a b) = true) -> count_quits tr = 1).
Proof.
  intros sv tr.
  apply (session_quit_discipline sv example_body "abc12345" (Stored [])
           (VDict example_store_data) 1).
  - reflexivity.
  - intros; reflexivity.
Defined.





(** ** More on the progress store *)

Lemma find_entry_app (sid : string) (h1 h2 : list (gmap string value)) :
  find_entry sid (h1 ++ h2) =
  match find_entry sid h1 with Some e => Some e | None => find_entry sid h2 end.
Proof.
  induction h1 as [|e h1 IH]; simpl; [reflexivity|].
  destruct (has_store_id sid e); [reflexivity|apply IH].
Qed.

(** X1: [save_history] appends: on a store that can be read (a missing or
    corrupt file counts as empty) it returns, a reader then gets the old
    records followed by the new one, and the lookup by job id finds the
    new record exactly when no older record carries its id (an older
    record with the same id keeps answering). *)
Theorem save_history_appends (e : gmap string value) (sid : string) (w : world) :
  readable (db w) = true ->
  has_store_id sid e = true ->
  let w' := snd (save_history e w) in
  fst (save_history e w) = Ret tt /\
  fst (load_history w') = Ret (records (db w) ++ [e]) /\
  fst (get_entry_by_store_id sid w') =
    Ret (Some (default e (find_entry sid (records (db w))))).
Proof.
  intros Hr Hid w'. subst w'. rewrite (save_history_readable e w Hr). cbn [fst snd].
  split; [reflexivity|].
  assert (Hl : load_history (with_write (records (db w) ++ [e]) w) =
               (Ret (records (db w) ++ [e]), with_write (records (db w) ++ [e]) w)).
  { apply (load_history_readable (with_write (records (db w) ++ [e]) w)). reflexivity. }
  split; [rewrite Hl; reflexivity|].
  unfold get_entry_by_store_id, mbind, M_bind, bind. rewrite Hl. cbn [fst ret].
  rewrite find_entry_app. simpl. rewrite Hid.
  destruct (find_entry sid (records (db w))); reflexivity.
Qed.

Lemma save_history_appends_witness :
  fst (get_entry_by_store_id "abc12345"
         (snd (save_history (initial_entry "abc12345" 0 "2025-01-01 10:00:00" ∅)
                 (world0 (ReadFails (Exc JSONDecodeError "Expecting value")))))) =
  Ret (Some (initial_entry "abc12345" 0 "2025-01-01 10:00:00" ∅)).
Proof.
  destruct (save_history_appends (initial_entry "abc12345" 0 "2025-01-01 10:00:00" ∅)
              "abc12345" (world0 (ReadFails (Exc JSONDecodeError "Expecting value"))))
    as (_ & _ & Hget).
  - reflexivity.
  - reflexivity.
  - exact Hget.
Defined.

Lemma has_store_id_inj (sid sid' : string) (e : gmap string value) :
  has_store_id sid e = true -> has_store_id sid' e = true -> sid = sid'.
Proof.
  unfold has_store_id. destruct (e !! "store_id") as [[| | |s| |]|]; try discriminate.
  intros H1%String.eqb_eq H2%String.eqb_eq. congruence.
Qed.

Lemma find_entry_update_first_other (sid sid' : string) (upd : gmap string value)
  (h : list (gmap string value)) :
  upd !! "store_id" = None -> sid <> sid' ->
  find_entry sid' (update_first sid upd h) = find_entry sid' h.
Proof.
  intros Hu Hne. induction h as [|e h IH]; simpl; [reflexivity|].
  destruct (has_store_id sid e) eqn:Hid; simpl.
  - rewrite (has_store_id_update _ _ _ Hu).
    destruct (has_store_id sid' e) eqn:Hid'; [|reflexivity].
    exfalso. apply Hne. exact (has_store_id_inj _ _ _ Hid Hid').
  - rewrite IH. reflexivity.
Qed.

Lemma length_update_first (sid : string) (upd : gmap string value)
  (h : list (gmap string value)) :
  length (update_first sid upd h) = length h.
Proof.
  induction h as [|e h IH]; simpl; [reflexivity|].
  destruct (has_store_id sid e); simpl; [reflexivity|]. rewrite IH. reflexivity.
Qed.

(** X2: [update_entry_status] merges the update into the record that the
    lookup by id returns: afterwards the lookup gives that record with the
    updated keys overwritten and the other keys kept, the number of records
    is the same, and the lookup of every other id answers as before.  The
    update must not carry a [store_id] key. *)
Theorem update_entry_status_merges (sid : string) (upd e : gmap string value) (w : world) :
  readable (db w) = true ->
  find_entry sid (records (db w)) = Some e ->
  upd !! "store_id" = None ->
  let w' := snd (update_entry_status sid upd w) in
  fst (update_entry_status sid upd w) = Ret tt /\
  fst (get_entry_by_store_id sid w') = Ret (Some (upd ∪ e)) /\
  (forall k v, upd !! k = Some v -> (upd ∪ e) !! k = Some v) /\
  (forall k, upd !! k = None -> (upd ∪ e) !! k = e !! k) /\
  length (records (db w')) = length (records (db w)) /\
  (forall sid', sid' <> sid ->
     fst (get_entry_by_store_id sid' w') = fst (get_entry_by_store_id sid' w)).
Proof.
  intros Hr Hf Hu w'. subst w'. rewrite (update_entry_status_readable sid upd w Hr).
  cbn [fst snd].
  assert (Hget : forall s h w0, db w0 = Stored h ->
            fst (get_entry_by_store_id s w0) = Ret (find_entry s h)).
  { intros s h w0 Hdb. unfold get_entry_by_store_id, mbind, M_bind, bind.
    rewrite load_history_eq, Hdb. reflexivity. }
  assert (Hget' : forall s, fst (get_entry_by_store_id s w) = Ret (find_entry s (records (db w)))).
  { intros s. unfold get_entry_by_store_id, mbind, M_bind, bind.
    rewrite (load_history_readable w Hr). reflexivity. }
  split; [reflexivity|]. split.
  { rewrite (Hget sid (update_first sid upd (records (db w)))) by reflexivity.
    rewrite (find_entry_update_first _ _ _ _ Hu Hf). reflexivity. }
  split. { intros k v Hk. rewrite lookup_update, Hk. reflexivity. }
  split. { intros k Hk. rewrite lookup_update, Hk. reflexivity. }
  split. { simpl. apply length_update_first. }
  intros sid' Hne.
  rewrite (Hget sid' (update_first sid upd (records (db w)))) by reflexivity. rewrite Hget'.
  rewrite find_entry_update_first_other; [reflexivity|exact Hu|congruence].
Qed.

Lemma update_entry_status_merges_witness :
  fst (get_entry_by_store_id "abc12345"
         (snd (update_entry_status "abc12345" upd_token_done
                 (world0 (Stored [initial_entry "abc12345" 0 "2025-01-01 10:00:00" ∅]))))) =
  Ret (Some (upd_token_done ∪ initial_entry "abc12345" 0 "2025-01-01 10:00:00" ∅)).
Proof.
  destruct (update_entry_status_merges "abc12345" upd_token_done
              (initial_entry "abc12345" 0 "2025-01-01 10:00:00" ∅)
              (world0 (Stored [initial_entry "abc12345" 0 "2025-01-01 10:00:00" ∅])))
    as (_ & Hget & _).
  - reflexivity.
  - reflexivity.
  - reflexivity.
  - exact Hget.
Defined.

(** ** Rejected submissions *)

Lemma check_required_world (data : value) (fields : list string) (w : world) :
  snd (check_required data fields w) = w /\
  match fst (check_required data fields w) with
  | Ret (Some resp) => code resp = 400%Z
  | _ => True
  end.
Proof.
  induction fields as [|f fields IH]; simpl; [split; [reflexivity|exact I]|].
  unfold mbind, M_bind, bind, value_get, value_strip, ret, raise.
  destruct data as [| | | | |d]; try (split; [reflexivity|exact I]).
  destruct (dict_get_default d f (VStr "")) as [| | |s| |]; try (split; [reflexivity|exact I]).
  destruct (String.eqb (strip s) ""); [split; reflexivity|].
  exact IH.
Qed.

(** What [api_create_store] can do: answer 400 or 500 and leave the world
    alone, or answer 202 after appending the initial record of the job
    (numbered one more than the number of records) and queueing its task. *)
Lemma api_create_store_cases (data : value) (r : Z) (now : string) (w : world) :
  (exists resp, api_create_store data r now w = (Ret resp, w) /\
                (code resp = 400%Z \/ code resp = 500%Z)) \/
  (exists user_data,
     readable (db w) = true /\
     let store_id := generate_store_id r in
     let h' := records (db w) ++ [initial_entry store_id (length (records (db w))) now user_data] in
     api_create_store data r now w =
       (Ret (accepted store_id),
        {| db := Stored h';
           events := EvSubmit (store_id, user_data) :: EvWrite h' :: events w;
           browser_session := browser_session w;
           automation_log := automation_log w |})).
Proof.
  remember (api_create_store data r now w) as out eqn:Hout.
  unfold api_create_store, try_except in Hout.
  destruct (negb (truthy data)).
  { subst out. left. eexists. split; [reflexivity|]. left; reflexivity. }
  unfold mbind at 1, M_bind at 1, bind at 1 in Hout.
  destruct (check_required_world data required_fields w) as [Hw Hc].
  destruct (check_required data required_fields w) as [[[resp|]|e] w1]; simpl in Hw, Hc; subst w1.
  { subst out. left. eexists. split; [reflexivity|]. left; exact Hc. }
  2: { subst out. left. eexists. split; [reflexivity|]. right; reflexivity. }
  unfold mbind, M_bind, bind, value_item, value_get, value_strip, ret, raise in Hout.
  destruct data as [| | | | |d];
    try (subst out; left; eexists; split; [reflexivity|]; right; reflexivity).
  destruct (d !! "email") as [[| | |se| |]|];
    try (subst out; left; eexists; split; [reflexivity|]; right; reflexivity).
  cbv beta iota in Hout.
  destruct (negb (contains_char "@" (strip se)) || negb (contains_char "." (strip se))).
  { subst out. left. eexists. split; [reflexivity|]. left; reflexivity. }
  destruct (d !! "client_name") as [[| | |sc| |]|];
    try (subst out; left; eexists; split; [reflexivity|]; right; reflexivity).
  destruct (d !! "store_name") as [[| | |ss| |]|];
    try (subst out; left; eexists; split; [reflexivity|]; right; reflexivity).
  destruct (d !! "business_type") as [[| | |sb| |]|];
    try (subst out; left; eexists; split; [reflexivity|]; right; reflexivity).
  cbv beta iota zeta in Hout.
  destruct (readable (db w)) eqn:Hr.
  - rewrite (load_history_readable w Hr) in Hout.
    rewrite (save_history_readable _ w Hr) in Hout.
    rewrite ne_5_forced in Hout.
    subst out. right.
    exists (list_to_map [
      ("client_name", VStr (strip sc)); ("email", VStr (strip se));
      ("store_name", VStr (strip ss)); ("business_type", VStr (strip sb));
      ("product_category", dict_get_default d "product_category" (VStr "electronics"));
      ("product_count", VInt 5);
      ("country", dict_get_default d "country" (VStr "US"))]).
    split; reflexivity.
  - rewrite load_history_eq in Hout.
    destruct (db w) as [|e|h]; try discriminate. simpl in Hr. rewrite Hr in Hout.
    subst out. left. eexists. split; [reflexivity|]. right; reflexivity.
Qed.

(** X3: [api_create_store] always answers: it returns a response with code
    202, 400 or 500 and never raises, and unless the code is 202 it leaves
    the world as it found it (nothing is written to the store and nothing
    is queued on the executor). *)
Theorem api_create_store_answers (data : value) (r : Z) (now : string) (w : world) :
  exists resp w',
    api_create_store data r now w = (Ret resp, w') /\
    (code resp = 202%Z \/ code resp = 400%Z \/ code resp = 500%Z) /\
    (code resp <> 202%Z -> w' = w).
Proof.
  destruct (api_create_store_cases data r now w) as [(resp & Hrun & Hc)|(ud & Hr & Hrun)].
  - exists resp, w. split; [exact Hrun|]. split; [right; exact Hc|reflexivity].
  - cbv zeta in Hrun. do 2 eexists. split; [exact Hrun|].
    split; [left; reflexivity|]. intros H. contradiction H. reflexivity.
Qed.




Lemma find_has_id_at (k : Z) (l : list (gmap string value)) (j : nat)
  (e : gmap string value) :
  (forall (m : nat) (x : gmap string value),
      l !! m = Some x -> x !! "id" = Some (VInt (Z.of_nat m + k))) ->
  l !! j = Some e ->
  List.find (has_id (Z.of_nat j + k)) l = Some e.
Proof.
  revert k j. induction l as [|x l IH]; intros k j Hl Hj; [discriminate|].
  destruct j as [|j].
  - injection Hj as ->. simpl. unfold has_id. rewrite (Hl 0 e eq_refl).
    rewrite Z.eqb_refl. reflexivity.
  - simpl. unfold has_id at 1. rewrite (Hl 0 x eq_refl).
    replace (Z.of_nat 0 + k =? Z.of_nat (S j) + k)%Z with false
      by (symmetry; apply Z.eqb_neq; lia).
    replace (Z.of_nat (S j) + k)%Z with (Z.of_nat j + (k + 1))%Z by lia.
    apply IH; [|exact Hj].
    intros m y Hm. rewrite (Hl (S m) y Hm). f_equal. f_equal. lia.
Qed.

Lemma get_status_at (h : list (gmap string value)) (i : nat) (e : gmap string value)
  (w : world) :
  db w = Stored h ->
  ids_sequential h ->
  h !! i = Some e ->
  get_status (Z.of_nat i + 1) w = (Ret (Response e 200), w).
Proof.
  intros Hdb Hseq Hi. unfold get_status, mbind, M_bind, bind.
  rewrite load_history_eq, Hdb. cbv beta iota.
  rewrite (find_has_id_at 1 h i e Hseq Hi). reflexivity.
Qed.

Lemma ids_sequential_snoc (h : list (gmap string value)) (e : gmap string value) :
  ids_sequential h ->
  e !! "id" = Some (VInt (Z.of_nat (length h) + 1)) ->
  ids_sequential (h ++ [e]).
Proof.
  intros Hseq He i x Hi.
  destruct (decide (i < length h)) as [Hlt|Hge].
  - rewrite lookup_app_l in Hi by exact Hlt. apply Hseq, Hi.
  - rewrite lookup_app_r in Hi by lia.
    destruct (i - length h) as [|k] eqn:Hk; [|destruct k; discriminate].
    injection Hi as <-. rewrite He. f_equal. f_equal. lia.
Qed.

(** X5: sequence numbers.  If the [id] of every stored record is its
    position in the store (counted from 1), this is still so after any call
    of [api_create_store], accepted or not, and [get_status] on a number
    then returns the record at that position. *)
Theorem api_create_store_numbers (data : value) (r : Z) (now : string) (w : world) :
  readable (db w) = true ->
  ids_sequential (records (db w)) ->
  let w' := snd (api_create_store data r now w) in
  ids_sequential (records (db w')) /\
  forall i e, records (db w') !! i = Some e ->
    fst (get_status (Z.of_nat i + 1) w') = Ret (Response e 200).
Proof.
  intros Hr Hseq w'. subst w'.
  destruct (api_create_store_cases data r now w) as [(resp & Hrun & Hc)|(ud & _ & Hrun)].
  - rewrite Hrun. cbn [snd]. split; [exact Hseq|].
    intros i e Hi.
    destruct (db w) as [|x|h] eqn:Hdb.
    + destruct i; discriminate.
    + destruct i; discriminate.
    + rewrite (get_status_at h i e w Hdb Hseq Hi). reflexivity.
  - cbv zeta in Hrun. rewrite Hrun. cbn [snd db records].
    assert (Hseq' : ids_sequential
              (records (db w) ++
               [initial_entry (generate_store_id r) (length (records (db w))) now ud])).
    { apply ids_sequential_snoc; [exact Hseq|].
      unfold initial_entry. rewrite lookup_list_to_map_assoc. reflexivity. }
    split; [exact Hseq'|].
    intros i e Hi. erewrite get_status_at; [reflexivity|reflexivity|exact Hseq'|exact Hi].
Qed.

Lemma api_create_store_numbers_witness :
  fst (get_status 1
         (snd (api_create_store (VDict example_body) 7 "2025-01-01 10:00:00"
                 (world0 (Stored []))))) =
  Ret (Response (initial_entry (generate_store_id 7) 0 "2025-01-01 10:00:00"
                   (submitted_user_data example_body)) 200).
Proof.
  destruct (api_create_store_numbers (VDict example_body) 7 "2025-01-01 10:00:00"
              (world0 (Stored []))) as [_ Hget].
  - reflexivity.
  - intros i e Hi. destruct i; discriminate.
  - apply (Hget 0). reflexivity.
Defined.

(** ** The status endpoint *)

Lemma find_entry_has_store_id (sid : string) (h : list (gmap string value))
  (e : gmap string value) :
  find_entry sid h = Some e -> has_store_id sid e = true.
Proof.
  induction h as [|x h IH]; simpl; [discriminate|].
  destruct (has_store_id sid x) eqn:Hx; [|exact IH].
  intros [= <-]. exact Hx.
Qed.

Lemma has_store_id_truthy (sid : string) (e : gmap string value) :
  has_store_id sid e = true -> truthy (VDict e) = true.
Proof.
  unfold has_store_id. destruct (e !! "store_id") as [v|] eqn:Hv; [|discriminate].
  intros _. exact (dict_truthy_lookup e "store_id" v Hv).
Qed.

Lemma status_is_exclusive (e : gmap string value) :
  status_is "completed" e = true -> status_is "failed" e = false.
Proof.
  unfold status_is. destruct (e !! "status") as [[| | |s| |]|]; try discriminate.
  intros ->%String.eqb_eq. reflexivity.
Qed.

(** X6: a status query on a store that can be read never raises.  It
    answers 404 when no record carries the id.  Otherwise it answers 200
    with the id asked for and the status, step and percentage of the first
    record that carries it; the result fields ([store_url],
    [products_count]) are present exactly when that record is completed
    and the [error] field exactly when it is failed. *)
Theorem api_get_store_status_answers (sid : string) (w : world) :
  readable (db w) = true ->
  exists resp,
    api_get_store_status sid w = (Ret resp, w) /\
    (find_entry sid (records (db w)) = None ->
       resp = Response {[ "error" := VStr "Store not found" ]} 404) /\
    (forall e, find_entry sid (records (db w)) = Some e ->
       code resp = 200%Z /\
       body resp !! "store_id" = Some (VStr sid) /\
       body resp !! "status" = Some (dict_get_default e "status" (VStr "processing")) /\
       body resp !! "current_step" = Some (dict_get_default e "current_step" (VStr "queued")) /\
       body resp !! "progress_percent" = Some (dict_get_default e "progress_percent" (VInt 0)) /\
       body resp !! "products_count" =
         (if status_is "completed" e
          then Some (dict_get_default e "products_imported" (VInt 0)) else None) /\
       body resp !! "store_url" =
         (if status_is "completed" e then Some (dict_get e "store_url") else None) /\
       body resp !! "error" =
         (if status_is "failed" e
          then Some (dict_get_default e "error" (VStr "Unknown error")) else None)).
Proof.
  intros Hr. unfold api_get_store_status, get_entry_by_store_id, mbind, M_bind, bind, ret.
  rewrite (load_history_readable w Hr). cbv beta iota.
  destruct (find_entry sid (records (db w))) as [e|] eqn:Hf.
  - rewrite (has_store_id_truthy sid e (find_entry_has_store_id _ _ _ Hf)). cbn [negb].
    eexists. split; [reflexivity|]. split; [discriminate|].
    intros e' [= <-]. cbn [code body].
    destruct (status_is "completed" e) eqn:Hc.
    + rewrite (status_is_exclusive e Hc).
      repeat split;
        rewrite ?lookup_insert_ne by discriminate;
        rewrite ?lookup_insert_eq, ?lookup_list_to_map_assoc; reflexivity.
    + destruct (status_is "failed" e);
      repeat split;
        rewrite ?lookup_insert_ne by discriminate;
        rewrite ?lookup_insert_eq, ?lookup_list_to_map_assoc; reflexivity.
  - eexists. split; [reflexivity|]. split; [reflexivity|discriminate].
Qed.

(** A poll right after an accepted submission: the job is [processing],
    [queued], at 0 percent. *)
Lemma api_get_store_status_answers_witness :
  let w := snd (api_create_store (VDict example_body) 7 "2025-01-01 10:00:00"
                  (world0 (Stored []))) in
  (let resp := fst (api_get_store_status (generate_store_id 7) w) in
   code <$> returned resp) = Some 200%Z /\
  (returned (fst (api_get_store_status (generate_store_id 7) w)) ≫=
     fun resp => body resp !! "status") = Some (VStr "processing") /\
  (returned (fst (api_get_store_status (generate_store_id 7) w)) ≫=
     fun resp => body resp !! "progress_percent") = Some (VInt 0).
Proof.
  intros w.
  destruct (api_get_store_status_answers (generate_store_id 7) w) as (resp & Hrun & _ & Hsome).
  - reflexivity.
  - destruct (Hsome (initial_entry (generate_store_id 7) 0 "2025-01-01 10:00:00"
                       (submitted_user_data example_body)))
      as (Hcode & _ & Hst & _ & Hp & _).
    + reflexivity.
    + rewrite Hrun. cbn [fst returned fmap option_fmap option_map mbind option_bind].
      rewrite Hcode, Hst, Hp. repeat split; reflexivity.
Defined.

(** ** The statistics *)

Lemma status_is_inj (a b : string) (e : gmap string value) :
  status_is a e = true -> status_is b e = true -> a = b.
Proof.
  unfold status_is. destruct (e !! "status") as [[| | |s| |]|]; try discriminate.
  intros H1%String.eqb_eq H2%String.eqb_eq. congruence.
Qed.

Lemma count_status_disjoint (h : list (gmap string value)) :
  count_status "completed" h + count_status "failed" h + count_status "in_progress" h
  + count_status "processing" h ≤ length h.
Proof.
  unfold count_status. induction h as [|e h IH]; simpl; [lia|].
  destruct (status_is "completed" e) eqn:H1, (status_is "failed" e) eqn:H2,
           (status_is "in_progress" e) eqn:H3, (status_is "processing" e) eqn:H4;
    simpl; try lia;
    match goal with
    | Ha : status_is ?a e = true, Hb : status_is ?b e = true |- _ =>
        discriminate (status_is_inj a b e Ha Hb)
    end.
Qed.

Lemma total_products_no_steps (h : list (gmap string value)) :
  Forall (fun e => dict_get_default e "steps" (VList []) = VList []) h ->
  total_products h = Ret 0%Z.
Proof.
  induction 1 as [|e h He _ IH]; simpl; [reflexivity|].
  unfold entry_steps. rewrite He. simpl. rewrite IH. reflexivity.
Qed.

(** X7: on a store whose records all have an empty stage list, which is
    what the submission endpoint writes and the background orchestrator
    keeps, [get_stats] returns, counts every record in [total_stores], and
    reports 0 imported products whatever the [products_imported] fields
    say; a record counts in at most one of [completed], [failed],
    [in_progress], and a record whose status is [processing] in none. *)
Theorem get_stats_of_api_jobs (w : world) :
  readable (db w) = true ->
  Forall (fun e => dict_get_default e "steps" (VList []) = VList []) (records (db w)) ->
  exists st,
    get_stats w = (Ret st, w) /\
    total_stores st = length (records (db w)) /\
    total_products_imported st = 0%Z /\
    completed st + failed_count st + in_progress st
      + count_status "processing" (records (db w)) ≤ total_stores st.
Proof.
  intros Hr Hsteps. unfold get_stats, mbind, M_bind, bind, lift_result, ret.
  rewrite (load_history_readable w Hr). cbv beta iota.
  rewrite (total_products_no_steps _ Hsteps).
  eexists. split; [reflexivity|]. cbn [total_stores total_products_imported completed
                                       failed_count in_progress].
  split; [reflexivity|]. split; [reflexivity|]. apply count_status_disjoint.
Qed.

Lemma get_stats_of_api_jobs_witness :
  let e := upd_completed (VStr "https://foo.myshopify.com") example_store_data
             "2025-01-01 10:05:00"
           ∪ (upd_imported 2
              ∪ initial_entry "abc12345" 0 "2025-01-01 10:00:00"
                  (submitted_user_data example_body)) in
  (returned (fst (get_stats (world0 (Stored [e])))) ≫=
     fun st => Some (total_stores st, completed st, total_products_imported st))
  = Some (1, 1, 0%Z).
Proof.
  intros e.
  destruct (get_stats_of_api_jobs (world0 (Stored [e]))) as (st & Hrun & Ht & Hp & Hc).
  - reflexivity.
  - constructor; [|constructor].
    unfold dict_get_default. subst e. unfold upd_completed, upd_imported, initial_entry.
    rewrite !lookup_update, !lookup_list_to_map_assoc. reflexivity.
  - rewrite Hrun. cbn [fst returned mbind option_bind]. rewrite Ht, Hp.
    assert (Hcompl : completed st = 1).
    { unfold get_stats, mbind, M_bind, bind, lift_result, ret in Hrun.
      rewrite load_history_eq in Hrun. cbn [db world0] in Hrun. cbv beta iota in Hrun.
      destruct (total_products [e]) as [tp|x]; [|discriminate].
      injection Hrun as <-. cbn [completed]. unfold count_status. simpl.
      unfold status_is. subst e. unfold upd_completed.
      rewrite lookup_update, lookup_list_to_map_assoc. reflexivity. }
    rewrite Hcompl. reflexivity.
Defined.

(** ** More on the background orchestrator *)

(** X8: a background run for a job recorded at submission returns without
    raising and leaves the job in a terminal state: either [completed] at
    100 percent after calling the four stages in order, or [failed] with an
    error message after calling the stages in order up to the one that
    failed; no stage is called twice and none after a failure. *)
Theorem background_run_ends (sv : services) (d : gmap string value)
  (sid ts : string) (n : nat) (h0 : list (gmap string value)) :
  find_entry sid h0 = Some (initial_entry sid n ts (submitted_user_data d)) ->
  let run := run_automation_background sv sid (submitted_user_data d) (world0 (Stored h0)) in
  fst run = Ret tt /\
  ((job_status sid (records (db (snd run))) = Some (VStr "completed") /\
    job_percent sid (records (db (snd run))) = Some 100%Z /\
    stage_calls (trace (snd run)) = all_stages) \/
   (job_status sid (records (db (snd run))) = Some (VStr "failed") /\
    (exists msg, job_field sid "error" (records (db (snd run))) = Some (VStr msg)) /\
    exists k, 1 ≤ k ≤ 4 /\ stage_calls (trace (snd run)) = take k all_stages)).
Proof.
  intros Hfind run. subst run. bg_exec d.
  all: split; [reflexivity|].
  all: unfold trace; cbn [events rev app stage_calls omap list_omap].
  all: first
    [ left; job_read Hfind; repeat split; reflexivity
    | right; job_read Hfind; split; [reflexivity|]; split; [eexists; reflexivity|];
      first [ exists 1; split; [lia|reflexivity]
            | exists 2; split; [lia|reflexivity]
            | exists 3; split; [lia|reflexivity]
            | exists 4; split; [lia|reflexivity] ] ].
Qed.

Lemma background_run_ends_witness :
  let sv := failing_import_services (fun _ => false) in
  let h0 := [initial_entry "abc12345" 0 "2025-01-01 10:00:00" (submitted_user_data example_body)] in
  let run := run_automation_background sv "abc12345" (submitted_user_data example_body)
               (world0 (Stored h0)) in
  fst run = Ret tt /\
  ((job_status "abc12345" (records (db (snd run))) = Some (VStr "completed") /\
    job_percent "abc12345" (records (db (snd run))) = Some 100%Z /\
    stage_calls (trace (snd run)) = all_stages) \/
   (job_status "abc12345" (records (db (snd run))) = Some (VStr "failed") /\
    (exists msg, job_field "abc12345" "error" (records (db (snd run))) = Some (VStr msg)) /\
    exists k, 1 ≤ k ≤ 4 /\ stage_calls (trace (snd run)) = take k all_stages)).
Proof.
  intros sv h0 run.
  apply (background_run_ends sv example_body "abc12345" "2025-01-01 10:00:00" 0 h0).
  reflexivity.
Defined.

(** X9: when the database file cannot be read (an error other than invalid
    JSON), a background run raises that error to the executor: the handler's
    own update fails as the first update did, no stage is called and
    nothing is written. *)
Theorem background_run_store_unreadable (sv : services) (sid : string)
  (user_data : gmap string value) (e : exn) :
  is_JSONDecodeError e = false ->
  run_automation_background sv sid user_data (world0 (ReadFails e)) =
    (Raise e, world0 (ReadFails e)).
Proof.
  intros He. unfold run_automation_background, update_entry_status.
  cbv beta iota zeta delta [mbind M_bind bind try_except ret raise mret M_ret
    set_browser_session get_browser_session now_str close_on_error world0].
  cbn [db events browser_session automation_log].
  rewrite load_history_eq. cbn [db]. rewrite He. cbv beta iota.
  cbn [browser_session events]. cbv beta iota.
  rewrite load_history_eq. cbn [db]. rewrite He. reflexivity.
Qed.

Lemma background_run_store_unreadable_witness :
  run_automation_background (failing_import_services (fun _ => false)) "abc12345"
    (submitted_user_data example_body)
    (world0 (ReadFails (Exc PermissionError "Permission denied"))) =
  (Raise (Exc PermissionError "Permission denied"),
   world0 (ReadFails (Exc PermissionError "Permission denied"))).
Proof.
  apply (background_run_store_unreadable (failing_import_services (fun _ => false))
           "abc12345" (submitted_user_data example_body)
           (Exc PermissionError "Permission denied")).
  reflexivity.
Defined.

(** X10: a background run for an id that no stored record carries never
    changes the records: every write of the run puts back the records it
    read, while the stages are called all the same. *)
Theorem background_run_unknown_id (sv : services) (d : gmap string value)
  (sid : string) (h0 : list (gmap string value)) :
  find_entry sid h0 = None ->
  let w' := snd (run_automation_background sv sid (submitted_user_data d)
                   (world0 (Stored h0))) in
  Forall (fun h => h = h0) (writes (trace w')) /\
  db w' = Stored h0 /\
  exists k, 1 ≤ k ≤ 4 /\ stage_calls (trace w') = take k all_stages.
Proof.
  intros Hfind w'. subst w'. bg_exec d.
  all: rewrite ?(update_first_absent _ _ _ Hfind).
  all: unfold trace; cbn [events rev app writes stage_calls omap list_omap].
  all: split; [repeat constructor|]; split; [reflexivity|].
  all: first [ exists 1; split; [lia|reflexivity]
             | exists 2; split; [lia|reflexivity]
             | exists 3; split; [lia|reflexivity]
             | exists 4; split; [lia|reflexivity] ].
Qed.

Lemma background_run_unknown_id_witness :
  let w' := snd (run_automation_background (failing_import_services (fun _ => false))
                   "abc12345" (submitted_user_data example_body) (world0 (Stored []))) in
  Forall (fun h => h = []) (writes (trace w')) /\
  db w' = Stored [] /\
  exists k, 1 ≤ k ≤ 4 /\ stage_calls (trace w') = take k all_stages.
Proof.
  intros w'.
  apply (background_run_unknown_id (failing_import_services (fun _ => false))
           example_body "abc12345" []).
  reflexivity.
Defined.

(** ** More on the catalog importer *)






Lemma fallback_api_down (env : importer_env) (max_products : Z) (kw : keywords) :
  api_down (api_all_products env) ->
  _fallback_load_all_products env max_products kw = [].
Proof.
  unfold _fallback_load_all_products, api_down.
  destruct (api_all_products env) as [e|status all_products]; [reflexivity|].
  intros Hs. apply Z.eqb_neq in Hs. rewrite Hs. reflexivity.
Qed.

(** X12: when the catalog API cannot be used (the request to the category
    endpoint raises or is not answered 200, and so for the fallback
    endpoint), the import stage does not raise: it returns the empty list,
    whatever the category and the count. *)
Theorem import_products_api_down (env : importer_env) (access_token url : string)
  (category : value) (n : Z) :
  (forall endpoint, api_down (api_products env endpoint)) ->
  api_down (api_all_products env) ->
  import_products env access_token (VStr url) category (VInt n) = Ret [].
Proof.
  intros Hdown Hall. unfold import_products. cbn [init_max_products mbind result_bind].
  assert (Hload : load_ebay_products env (Z.min (Z.max n 5) 30) category = []).
  { destruct category as [| | |s| |]; try reflexivity.
    cbn [load_ebay_products]. unfold load_ebay_products_str.
    match goal with |- context [api_products env ?ep] =>
      specialize (Hdown ep); destruct (api_products env ep) as [e|status all_products] end;
      [reflexivity|].
    simpl in Hdown. apply Z.eqb_neq in Hdown. rewrite Hdown. cbn [negb].
    apply fallback_api_down, Hall. }
  unfold ebay_import_products. rewrite Hload. reflexivity.
Qed.

Lemma import_products_api_down_witness :
  let env := {| api_products := fun _ => ApiRaises (Exc Exception "Connection refused");
                api_all_products := ApiResponse 503 VNone;
                search_keywords := fun _ => tablet_keywords;
                extract_price := fun _ => (1999 # 100)%Q;
                extract_images := fun _ _ => [];
                product_score := fun _ _ _ _ => 0%Q;
                build_product := fun p => p;
                upload_to_shopify := fun _ _ => true;
                random_sample := fun l k => take k l |} in
  import_products env "shpat_0123456789abcdef" (VStr "https://foo.myshopify.com")
    (VStr "tablet") (VInt 5) = Ret [].
Proof.
  intros env. apply (import_products_api_down env).
  - intros endpoint. exact I.
  - discriminate.
Defined.










(** ** The format of job identifiers *)

Lemma length_hex_of (n : nat) (u : Z) : String.length (hex_of n u) = n.
Proof. induction n as [|n IH]; simpl; [reflexivity|]. rewrite IH. reflexivity. Qed.

Lemma hex_of_split (n m : nat) (u : Z) :
  hex_of (n + m) u = hex_of n (Z.shiftr u (4 * Z.of_nat m)) +:+ hex_of m u.
Proof.
  induction n as [|n IH]; [reflexivity|].
  cbn [Nat.add hex_of String.append]. rewrite IH.
  rewrite Z.shiftr_shiftr by lia.
  replace (4 * Z.of_nat m + 4 * Z.of_nat n)%Z with (4 * Z.of_nat (n + m))%Z by lia.
  reflexivity.
Qed.

Lemma substring_prefix (s1 s2 : string) (k : nat) :
  String.length s1 = k -> substring 0 k (s1 +:+ s2) = s1.
Proof.
  intros <-. induction s1 as [|c s1 IH]; simpl.
  - destruct s2; reflexivity.
  - rewrite IH. reflexivity.
Qed.

Lemma uuid4_top_bits (r : Z) :
  Z.shiftr (uuid4 r) 96 = Z.shiftr (Z.land r (Z.ones 128)) 96.
Proof.
  unfold uuid4. cbv zeta.
  rewrite Z.shiftr_lor, Z.shiftr_land, Z.shiftr_lor, Z.shiftr_land.
  change (Z.shiftr (Z.shiftl 4 76) 96) with 0%Z.
  change (Z.shiftr (Z.lnot (Z.shiftl 61440 64)) 96) with (-1)%Z.
  change (Z.shiftr (Z.shiftl 32768 48) 96) with 0%Z.
  change (Z.shiftr (Z.lnot (Z.shiftl 49152 48)) 96) with (-1)%Z.
  rewrite !Z.lor_0_r, !Z.land_m1_r. reflexivity.
Qed.

Lemma hex_digit_is_hex (d : Z) :
  contains_char (hex_digit d) "0123456789abcdef" = true.
Proof.
  unfold hex_digit.
  repeat match goal with
         | |- context [match ?x with _ => _ end] => destruct x
         end; reflexivity.
Qed.

Lemma hex_of_chars (n : nat) (u : Z) (c : ascii) :
  contains_char c (hex_of n u) = true -> contains_char c "0123456789abcdef" = true.
Proof.
  induction n as [|n IH]; cbn [hex_of contains_char]; [discriminate|].
  intros [Hc|Hc]%orb_prop; [|exact (IH Hc)].
  apply Ascii.eqb_eq in Hc. subst c. apply hex_digit_is_hex.
Qed.

(** X15: a job id is the 8-digit lower-case hexadecimal writing of the top
    32 of the 128 random bits drawn by [uuid4]: it has 8 characters, all
    hexadecimal digits, and two draws that agree on these 32 bits give the
    same id whatever their other 96 bits. *)
Theorem generate_store_id_format (r : Z) :
  let top := Z.shiftr (Z.land r (Z.ones 128)) 96 in
  generate_store_id r = hex_of 8 top /\
  String.length (generate_store_id r) = 8 /\
  (forall c, contains_char c (generate_store_id r) = true ->
             contains_char c "0123456789abcdef" = true) /\
  (forall r', Z.shiftr (Z.land r' (Z.ones 128)) 96 = top ->
              generate_store_id r' = generate_store_id r).
Proof.
  intros top.
  assert (Hid : forall x, generate_store_id x = hex_of 8 (Z.shiftr (Z.land x (Z.ones 128)) 96)).
  { intros x. unfold generate_store_id, uuid_str. cbv zeta.
    change 32 with (8 + 24). rewrite hex_of_split.
    change (4 * Z.of_nat 24)%Z with 96%Z. rewrite uuid4_top_bits.
    set (a := hex_of 8 (Z.shiftr (Z.land x (Z.ones 128)) 96)).
    set (b := hex_of 24 (uuid4 x)).
    assert (Ha : String.length a = 8) by apply length_hex_of.
    rewrite (substring_prefix a b 8 Ha). apply (substring_prefix a _ 8 Ha). }
  split; [apply Hid|]. split; [rewrite Hid; apply length_hex_of|].
  split; [intros c; rewrite Hid; apply hex_of_chars|].
  intros r' Hr'. rewrite !Hid, Hr'. reflexivity.
Qed.
